(** * VibeX client: session lifecycle, chat feed and auth guard

    A shallow embedding of the two stateful React components of the
    client, [MainApp] (src/MainApp.tsx) and [App] (the root component,
    src/unnamed/part_001), and the properties of their event handlers.

    Modelling conventions.
    - A component's [useState] cells are the fields of a record; a handler
      is a computation in a state-and-trace monad [M] over that record.
    - Everything a handler does to the outside world (remote calls,
      [alert], [console], timers, storage, navigation) is appended to a
      trace of [Effect]s, in program order.
    - A handler suspends only at the [await] of a remote call.  The
      results of the calls it awaits are arguments of the handler, so a
      handler is one atomic step: the values it reads after an [await]
      are those of the render in which it was invoked, exactly as its
      closure has them. *)

From Stdlib Require Import String Ascii List ZArith NArith QArith Bool Lia.
Import ListNotations.
Local Close Scope Q_scope.
Local Open Scope string_scope.
Local Open Scope list_scope.

(* ================================================================== *)
(** * Data model *)
(* ================================================================== *)

(** Modelled from the spec: the row types of [./types] ([User], [Session],
    [VibeMessage], [Profile]) are not part of the sources.  The fields are
    those the handlers read and write, with the columns of the backend
    tables [sessions], [messages] and [profiles]. *)

Module Profile.
Record t := mk { username : string; bio : string; privacy : string }.
End Profile.

(** A [profiles] row as the backend returns it. *)
Module ProfileRow.
Record t := mk { id : string; username : string; bio : string; privacy : string }.
End ProfileRow.

Module User.
Record t := mk { id : string; email : option string; profile : Profile.t }.
End User.

Inductive Status := active | closed.

(** The embedded [creator:profiles(username)] and [sender:profiles(username)]. *)
Record NameRef := { ref_username : string }.

Module Session.
Record t := mk {
  id : Z;
  status : Status;
  lat : Q;
  lng : Q;
  creator_id : string;
  duration : Z;                   (* minutes: an integer held in a JS number *)
  participants : list string;
  created_at : string;
  creator : option NameRef
}.
End Session.

(** [Omit<Session, 'id' | 'creator' | 'creator_id' | 'lat' | 'lng' | 'participants'>] *)
Module SessionData.
Record t := mk { status : Status; duration : Z; created_at : string }.
End SessionData.

(** A [messages] row ([payload.new] of an insert event). *)
Module MessageRow.
Record t := mk {
  id : Z;
  event_id : Z;
  sender_id : string;
  text : string;
  created_at : string
}.
End MessageRow.

(** [{ ...payload.new, sender: { username } }] *)
Module VibeMessage.
Record t := mk { row : MessageRow.t; sender : NameRef }.
End VibeMessage.

Record Coords := { c_lat : Q; c_lng : Q }.

Inductive AppTab := Home | Social | Alerts | ProfileTab.
Inductive SessionType := vibe | seek | cookie | borrow.

(* ================================================================== *)
(** * Remote calls and their results *)
(* ================================================================== *)

Record RemoteError := { message : string }.

(** The value of an awaited backend call: [{ data, error: null }],
    [{ data: null, error }], or the [await] raising into the enclosing
    [catch]. *)
Inductive Response (A : Type) :=
| Success (data : A)
| Failure (error : RemoteError)
| Rejected.
Arguments Success {A} data.
Arguments Failure {A} error.
Arguments Rejected {A}.

(** The row written by [handleCreateSession]. *)
Record NewSession := {
  ns_status : Status;
  ns_lat : Q;
  ns_lng : Q;
  ns_creator_id : string;
  ns_duration : Z;
  ns_participants : list string;
  ns_created_at : string
}.

Inductive Request :=
| SelectActiveSessions                                        (* sessions, status = 'active' *)
| SelectMessages (event_id : Z)                               (* messages of a session, by created_at *)
| SelectProfileName (id : string)                             (* profiles.username by id *)
| SelectProfileByUsername (username : string)
| SelectProfileById (id : string)
| InsertProfile (row : ProfileRow.t)
| UpdateProfile (id : string) (bio privacy : string)
| InsertSession (row : NewSession)
| UpdateStatus (sessionId : Z) (status : Status)
| UpdateDuration (sessionId : Z) (duration : Z)
| UpdateParticipants (sessionId : Z) (participants : list string)
| InsertMessage (text sender_id : string) (event_id : Z)
| AuthGetSession
| AuthSignOut.

Inductive Callback := OnLogout.

Inductive Effect :=
| Console (text : string)
| Alert (text : string)
| Remote (r : Request)
| SetTimeout (cb : Callback) (ms : N)
| LocalStorageClear
| SessionStorageClear
| LocationAssign (href : string)
| LocationReload.

(** [haystack.includes(needle)] *)
Fixpoint includes (haystack needle : string) : bool :=
  if String.prefix needle haystack then true
  else match haystack with
       | EmptyString => false
       | String _ rest => includes rest needle
       end.

(* ================================================================== *)
(** * JavaScript numbers holding integers *)
(* ================================================================== *)

(** A JS number is a binary64 float.  The integers among them are the
    integers of magnitude up to 2^53 and, beyond, those with 53
    significant bits.  [roundDouble z] is the number nearest to the
    integer [z], ties going to the even significand, which is what an
    arithmetic operation returns for the exact result [z]. *)
Definition roundDouble (z : Z) : Z :=
  let m := Z.abs z in
  let e := (Z.log2 m - 52)%Z in            (* weight of the last bit kept *)
  if (e <=? 0)%Z then z
  else
    let q := (2 ^ e)%Z in
    let lo := (m / q)%Z in
    let r := (m mod q)%Z in
    let half := (q / 2)%Z in
    let up := if (half <? r)%Z || ((r =? half)%Z && Z.odd lo) then 1%Z else 0%Z in
    (Z.sgn z * ((lo + up) * q))%Z.

(** [z] is the value of a JS number. *)
Definition isNumber (z : Z) : Prop := roundDouble z = z.

(** [a + b] on JS numbers holding the integers [a] and [b]. *)
Definition jsAdd (a b : Z) : Z := roundDouble (a + b).

Arguments roundDouble : simpl never.
Arguments jsAdd : simpl never.

(* ================================================================== *)
(** * The handler monad: component state and an effect trace *)
(* ================================================================== *)

Definition M (S A : Type) : Type := S -> A * S * list Effect.

Definition ret {S A} (a : A) : M S A := fun s => (a, s, []).

Definition bind {S A B} (c : M S A) (k : A -> M S B) : M S B :=
  fun s =>
    let '(a, s1, t1) := c s in
    let '(b, s2, t2) := k a s1 in
    (b, s2, t1 ++ t2).

Definition get {S} : M S S := fun s => (s, s, []).
Definition modify {S} (f : S -> S) : M S unit := fun s => (tt, f s, []).
Definition emit {S} (e : Effect) : M S unit := fun s => (tt, s, [e]).

Declare Scope handler_scope.
Delimit Scope handler_scope with handler.
Notation "x <- c ;; k" := (bind c (fun x => k))
  (at level 61, c at next level, right associativity) : handler_scope.
Notation "c ;; k" := (bind c (fun _ => k))
  (at level 61, right associativity) : handler_scope.
Local Open Scope handler_scope.

Definition exec {S A} (c : M S A) (s : S) : S := snd (fst (c s)).
Definition trace {S A} (c : M S A) (s : S) : list Effect := snd (c s).

Definition console {S} (text : string) : M S unit := emit (Console text).
Definition alert {S} (text : string) : M S unit := emit (Alert text).
Definition remote {S} (r : Request) : M S unit := emit (Remote r).
Definition setTimeout {S} (cb : Callback) (ms : N) : M S unit := emit (SetTimeout cb ms).

(** Projections of a trace. *)
Fixpoint remoteCalls (t : list Effect) : list Request :=
  match t with
  | [] => []
  | Remote r :: t' => r :: remoteCalls t'
  | _ :: t' => remoteCalls t'
  end.

Fixpoint timeouts (t : list Effect) : list (Callback * N) :=
  match t with
  | [] => []
  | SetTimeout cb ms :: t' => (cb, ms) :: timeouts t'
  | _ :: t' => timeouts t'
  end.

Fixpoint alerts (t : list Effect) : list string :=
  match t with
  | [] => []
  | Alert a :: t' => a :: alerts t'
  | _ :: t' => alerts t'
  end.

Fixpoint participantWrites (t : list Effect) : list (Z * list string) :=
  match t with
  | [] => []
  | Remote (UpdateParticipants sid ps) :: t' => (sid, ps) :: participantWrites t'
  | _ :: t' => participantWrites t'
  end.

(* ================================================================== *)
(** * MainApp (src/MainApp.tsx) *)
(* ================================================================== *)

Module MainApp.

(** The [useState] cells of the component, in declaration order
    ([mapViewRef] is a handle on the map widget and holds no state of the
    component). *)
Record State := mkState {
  activeTab : AppTab;
  isCreateMode : bool;
  isCreateModalOpen : bool;
  newEventCoords : option Coords;
  userLocation : option (Q * Q);
  sessions : list Session.t;
  activeSession : option Session.t;
  isChatVisible : bool;
  chatMessages : list VibeMessage.t;
  isSettingsModalOpen : bool;
  isProfileModalOpen : bool;
  viewedUser : option User.t;
  error : option string;
  sessionValid : bool;
  isSessionTypeModalOpen : bool;
  selectedSessionType : option SessionType
}.

(** The initial values passed to [useState]. *)
Definition init : State :=
  {| activeTab := Home; isCreateMode := false; isCreateModalOpen := false;
     newEventCoords := None; userLocation := None; sessions := [];
     activeSession := None; isChatVisible := false; chatMessages := [];
     isSettingsModalOpen := false; isProfileModalOpen := false;
     viewedUser := None; error := None; sessionValid := true;
     isSessionTypeModalOpen := false; selectedSessionType := None |}.

(** ** State setters.  [setSessionValid] is never called by the component. *)

Definition withActiveTab v (s : State) : State :=
  mkState v (isCreateMode s) (isCreateModalOpen s) (newEventCoords s)
    (userLocation s) (sessions s) (activeSession s) (isChatVisible s)
    (chatMessages s) (isSettingsModalOpen s) (isProfileModalOpen s)
    (viewedUser s) (error s) (sessionValid s) (isSessionTypeModalOpen s)
    (selectedSessionType s).
Definition withIsCreateMode v (s : State) : State :=
  mkState (activeTab s) v (isCreateModalOpen s) (newEventCoords s)
    (userLocation s) (sessions s) (activeSession s) (isChatVisible s)
    (chatMessages s) (isSettingsModalOpen s) (isProfileModalOpen s)
    (viewedUser s) (error s) (sessionValid s) (isSessionTypeModalOpen s)
    (selectedSessionType s).
Definition withIsCreateModalOpen v (s : State) : State :=
  mkState (activeTab s) (isCreateMode s) v (newEventCoords s)
    (userLocation s) (sessions s) (activeSession s) (isChatVisible s)
    (chatMessages s) (isSettingsModalOpen s) (isProfileModalOpen s)
    (viewedUser s) (error s) (sessionValid s) (isSessionTypeModalOpen s)
    (selectedSessionType s).
Definition withNewEventCoords v (s : State) : State :=
  mkState (activeTab s) (isCreateMode s) (isCreateModalOpen s) v
    (userLocation s) (sessions s) (activeSession s) (isChatVisible s)
    (chatMessages s) (isSettingsModalOpen s) (isProfileModalOpen s)
    (viewedUser s) (error s) (sessionValid s) (isSessionTypeModalOpen s)
    (selectedSessionType s).
Definition withUserLocation v (s : State) : State :=
  mkState (activeTab s) (isCreateMode s) (isCreateModalOpen s)
    (newEventCoords s) v (sessions s) (activeSession s) (isChatVisible s)
    (chatMessages s) (isSettingsModalOpen s) (isProfileModalOpen s)
    (viewedUser s) (error s) (sessionValid s) (isSessionTypeModalOpen s)
    (selectedSessionType s).
Definition withSessions v (s : State) : State :=
  mkState (activeTab s) (isCreateMode s) (isCreateModalOpen s)
    (newEventCoords s) (userLocation s) v (activeSession s)
    (isChatVisible s) (chatMessages s) (isSettingsModalOpen s)
    (isProfileModalOpen s) (viewedUser s) (error s) (sessionValid s)
    (isSessionTypeModalOpen s) (selectedSessionType s).
Definition withActiveSession v (s : State) : State :=
  mkState (activeTab s) (isCreateMode s) (isCreateModalOpen s)
    (newEventCoords s) (userLocation s) (sessions s) v (isChatVisible s)
    (chatMessages s) (isSettingsModalOpen s) (isProfileModalOpen s)
    (viewedUser s) (error s) (sessionValid s) (isSessionTypeModalOpen s)
    (selectedSessionType s).
Definition withIsChatVisible v (s : State) : State :=
  mkState (activeTab s) (isCreateMode s) (isCreateModalOpen s)
    (newEventCoords s) (userLocation s) (sessions s) (activeSession s) v
    (chatMessages s) (isSettingsModalOpen s) (isProfileModalOpen s)
    (viewedUser s) (error s) (sessionValid s) (isSessionTypeModalOpen s)
    (selectedSessionType s).
Definition withChatMessages v (s : State) : State :=
  mkState (activeTab s) (isCreateMode s) (isCreateModalOpen s)
    (newEventCoords s) (userLocation s) (sessions s) (activeSession s)
    (isChatVisible s) v (isSettingsModalOpen s) (isProfileModalOpen s)
    (viewedUser s) (error s) (sessionValid s) (isSessionTypeModalOpen s)
    (selectedSessionType s).
Definition withIsSettingsModalOpen v (s : State) : State :=
  mkState (activeTab s) (isCreateMode s) (isCreateModalOpen s)
    (newEventCoords s) (userLocation s) (sessions s) (activeSession s)
    (isChatVisible s) (chatMessages s) v (isProfileModalOpen s)
    (viewedUser s) (error s) (sessionValid s) (isSessionTypeModalOpen s)
    (selectedSessionType s).
Definition withIsProfileModalOpen v (s : State) : State :=
  mkState (activeTab s) (isCreateMode s) (isCreateModalOpen s)
    (newEventCoords s) (userLocation s) (sessions s) (activeSession s)
    (isChatVisible s) (chatMessages s) (isSettingsModalOpen s) v
    (viewedUser s) (error s) (sessionValid s) (isSessionTypeModalOpen s)
    (selectedSessionType s).
Definition withViewedUser v (s : State) : State :=
  mkState (activeTab s) (isCreateMode s) (isCreateModalOpen s)
    (newEventCoords s) (userLocation s) (sessions s) (activeSession s)
    (isChatVisible s) (chatMessages s) (isSettingsModalOpen s)
    (isProfileModalOpen s) v (error s) (sessionValid s)
    (isSessionTypeModalOpen s) (selectedSessionType s).
Definition withError v (s : State) : State :=
  mkState (activeTab s) (isCreateMode s) (isCreateModalOpen s)
    (newEventCoords s) (userLocation s) (sessions s) (activeSession s)
    (isChatVisible s) (chatMessages s) (isSettingsModalOpen s)
    (isProfileModalOpen s) (viewedUser s) v (sessionValid s)
    (isSessionTypeModalOpen s) (selectedSessionType s).
Definition withIsSessionTypeModalOpen v (s : State) : State :=
  mkState (activeTab s) (isCreateMode s) (isCreateModalOpen s)
    (newEventCoords s) (userLocation s) (sessions s) (activeSession s)
    (isChatVisible s) (chatMessages s) (isSettingsModalOpen s)
    (isProfileModalOpen s) (viewedUser s) (error s) (sessionValid s) v
    (selectedSessionType s).
Definition withSelectedSessionType v (s : State) : State :=
  mkState (activeTab s) (isCreateMode s) (isCreateModalOpen s)
    (newEventCoords s) (userLocation s) (sessions s) (activeSession s)
    (isChatVisible s) (chatMessages s) (isSettingsModalOpen s)
    (isProfileModalOpen s) (viewedUser s) (error s) (sessionValid s)
    (isSessionTypeModalOpen s) v.

Definition setActiveTab v : M State unit := modify (withActiveTab v).
Definition setIsCreateMode v : M State unit := modify (withIsCreateMode v).
Definition setIsCreateModalOpen v : M State unit := modify (withIsCreateModalOpen v).
Definition setNewEventCoords v : M State unit := modify (withNewEventCoords v).
Definition setUserLocation v : M State unit := modify (withUserLocation v).
Definition setSessions v : M State unit := modify (withSessions v).
Definition setActiveSession v : M State unit := modify (withActiveSession v).
Definition setIsChatVisible v : M State unit := modify (withIsChatVisible v).
Definition setChatMessages v : M State unit := modify (withChatMessages v).
(** [setChatMessages(msgs => f(msgs))] *)
Definition updateChatMessages (f : list VibeMessage.t -> list VibeMessage.t)
  : M State unit := modify (fun s => withChatMessages (f (chatMessages s)) s).
Definition setIsSettingsModalOpen v : M State unit := modify (withIsSettingsModalOpen v).
Definition setIsProfileModalOpen v : M State unit := modify (withIsProfileModalOpen v).
Definition setViewedUser v : M State unit := modify (withViewedUser v).
Definition setError v : M State unit := modify (withError v).
Definition setIsSessionTypeModalOpen v : M State unit := modify (withIsSessionTypeModalOpen v).
Definition setSelectedSessionType v : M State unit := modify (withSelectedSessionType v).

(** ** Failure classification, repeated verbatim in every error branch *)

(** [error.message.includes('JWT') || error.message.includes('session')] *)
Definition authExpired (error : RemoteError) : bool :=
  includes (message error) "JWT" || includes (message error) "session".

(** [setError("Session expired. Please log in again.");
     setTimeout(() => onLogout(), 2000);] *)
Definition sessionExpired : M State unit :=
  setError (Some "Session expired. Please log in again.") ;;
  setTimeout OnLogout 2000.

(** [sessions.find(s => s.id === sessionId)] *)
Definition findSession (sessionId : Z) (l : list Session.t) : option Session.t :=
  find (fun s => Z.eqb (Session.id s) sessionId) l.

(** ** The sessions effect: [fetchSessions], run at mount and again on
    every event of the [public:sessions] change feed *)

Definition fetchSessions (resp : Response (list Session.t)) : M State unit :=
  remote SelectActiveSessions ;;
  match resp with
  | Failure fetchError =>
      console "Error fetching sessions" ;;
      if authExpired fetchError then sessionExpired
      else setError (Some "Failed to load sessions. Please refresh the page.")
  | Success data =>
      setSessions data ;;
      setError None
  | Rejected =>
      console "Unexpected error:" ;;
      setError (Some "An unexpected error occurred while loading sessions.")
  end.

(** ** The messages effect: bulk load and live insert feed *)

Definition fetchMessages (current : Session.t)
    (resp : Response (list VibeMessage.t)) : M State unit :=
  remote (SelectMessages (Session.id current)) ;;
  match resp with
  | Failure error =>
      console "Error fetching messages" ;;
      if authExpired error then sessionExpired else ret tt
  | Success data => setChatMessages data
  | Rejected => console "Unexpected error fetching messages:"
  end.

(** The callback of the [INSERT] subscription on [messages], filtered on
    [event_id=eq.${activeSession.id}]. *)
Definition onMessageInsert (payload_new : MessageRow.t)
    (resp : Response NameRef) : M State unit :=
  remote (SelectProfileName (MessageRow.sender_id payload_new)) ;;
  match resp with
  | Failure error =>
      console (message error) ;;
      updateChatMessages (fun msgs =>
        msgs ++ [VibeMessage.mk payload_new {| ref_username := "Unknown" |}])
  | Success profile =>
      updateChatMessages (fun msgs =>
        msgs ++ [VibeMessage.mk payload_new
                   {| ref_username := ref_username profile |}])
  | Rejected => console "Error handling new message:"
  end.

(** ** Session lifecycle handlers *)

Definition handleMapClickInCreateMode (coords : Coords) : M State unit :=
  st <- get ;;
  match activeSession st with
  | Some _ =>
      alert "You are already in a session. Leave or close your current session to create a new one." ;;
      setIsCreateMode false
  | None =>
      setNewEventCoords (Some coords) ;;
      setIsCreateModalOpen true
  end.

Definition handleCreateSession (user : User.t) (sessionData : SessionData.t)
    (resp : Response (option Session.t)) : M State unit :=
  st <- get ;;
  match newEventCoords st with
  | None => ret tt
  | Some coords =>
      if negb (sessionValid st) then ret tt
      else
        remote (InsertSession
          {| ns_status := active;
             ns_lat := c_lat coords;
             ns_lng := c_lng coords;
             ns_creator_id := User.id user;
             ns_duration := SessionData.duration sessionData;
             ns_participants := [User.id user];
             ns_created_at := SessionData.created_at sessionData |}) ;;
        match resp with
        | Failure error =>
            console "Error creating session:" ;;
            if authExpired error then sessionExpired
            else setError (Some "Failed to create session. Please try again.")
        | Success (Some newSession) =>
            setActiveSession (Some newSession) ;;
            setIsCreateModalOpen false ;;
            setNewEventCoords None ;;
            setIsCreateMode false ;;
            setError None
        | Success None => ret tt
        | Rejected =>
            console "Unexpected error creating session:" ;;
            setError (Some "Failed to create session. Please try again.")
        end
  end.

(** [activeSession?.id === sessionId] *)
Definition isActiveId (a : option Session.t) (sessionId : Z) : bool :=
  match a with
  | Some s => Z.eqb (Session.id s) sessionId
  | None => false
  end.

Definition handleCloseSession (sessionId : Z) (resp : Response unit)
  : M State unit :=
  st <- get ;;
  if negb (sessionValid st) then ret tt
  else
    remote (UpdateStatus sessionId closed) ;;
    match resp with
    | Failure error =>
        console "Error closing session:" ;;
        if authExpired error then sessionExpired else ret tt
    | Success _ =>
        if isActiveId (activeSession st) sessionId then
          setActiveSession None ;;
          setIsChatVisible false
        else ret tt
    | Rejected => console "Unexpected error closing session:"
    end.

Definition handleExtendSession (sessionId : Z) (resp : Response unit)
  : M State unit :=
  st <- get ;;
  if negb (sessionValid st) then ret tt
  else
    match findSession sessionId (sessions st) with
    | None => ret tt
    | Some session =>
        remote (UpdateDuration sessionId (jsAdd (Session.duration session) 15)) ;;
        match resp with
        | Failure error =>
            console "Error extending session:" ;;
            if authExpired error then sessionExpired else ret tt
        | Success _ => ret tt
        | Rejected => console "Unexpected error extending session:"
        end
    end.

Definition handleJoinSession (user : User.t) (sessionId : Z)
    (resp : Response Session.t) : M State unit :=
  st <- get ;;
  if negb (sessionValid st) then ret tt
  else
    match activeSession st with
    | Some _ =>
        alert "You're already in a session. Please leave it before joining another."
    | None =>
        match findSession sessionId (sessions st) with
        | None => ret tt
        | Some session =>
            let newParticipants := Session.participants session ++ [User.id user] in
            remote (UpdateParticipants sessionId newParticipants) ;;
            match resp with
            | Failure error =>
                console "Error joining session:" ;;
                if authExpired error then sessionExpired else ret tt
            | Success data => setActiveSession (Some data)
            | Rejected => console "Unexpected error joining session:"
            end
        end
    end.

Definition handleLeaveSession (user : User.t) (sessionId : Z)
    (resp : Response unit) : M State unit :=
  st <- get ;;
  if negb (sessionValid st) then ret tt
  else
    match findSession sessionId (sessions st) with
    | None => ret tt
    | Some session =>
        let newParticipants :=
          filter (fun p => negb (String.eqb p (User.id user)))
                 (Session.participants session) in
        remote (UpdateParticipants sessionId newParticipants) ;;
        match resp with
        | Failure error =>
            console "Error leaving session:" ;;
            if authExpired error then sessionExpired else ret tt
        | Success _ =>
            setActiveSession None ;;
            setIsChatVisible false
        | Rejected => console "Unexpected error leaving session:"
        end
    end.

Definition handleSendMessage (user : User.t) (text : string)
    (resp : Response unit) : M State unit :=
  st <- get ;;
  match activeSession st with
  | None => ret tt
  | Some current =>
      if negb (sessionValid st) then ret tt
      else
        remote (InsertMessage text (User.id user) (Session.id current)) ;;
        match resp with
        | Failure error =>
            console "Error sending message:" ;;
            if authExpired error then sessionExpired else ret tt
        | Success _ => ret tt
        | Rejected => console "Unexpected error sending message:"
        end
  end.

Definition handleOpenProfile (username : string)
    (resp : Response (option ProfileRow.t)) : M State unit :=
  st <- get ;;
  if negb (sessionValid st) then ret tt
  else
    remote (SelectProfileByUsername username) ;;
    match resp with
    | Failure error =>
        console "Could not find user to view profile for:" ;;
        if authExpired error then sessionExpired else ret tt
    | Success (Some profile) =>
        let userToView :=
          User.mk (ProfileRow.id profile) None
            (Profile.mk (ProfileRow.username profile) (ProfileRow.bio profile)
                        (ProfileRow.privacy profile)) in
        setViewedUser (Some userToView) ;;
        setIsProfileModalOpen true
    | Success None => ret tt
    | Rejected => console "Unexpected error opening profile:"
    end.

Definition handleTabClick (tab : AppTab) : M State unit :=
  match tab with
  | ProfileTab => setIsSettingsModalOpen true
  | _ => setActiveTab tab
  end.

(** ** The component as a transition system

    One [Event] per way the component is entered: an effect's remote
    call settling, a change-feed notification, or a callback handed to a
    child component.  The argument of a callback is chosen by the child
    and is arbitrary here; a callback is available only while the child
    that holds it is rendered. *)

Inductive Event :=
| SessionsFetched (resp : Response (list Session.t))
| MessagesFetched (resp : Response (list VibeMessage.t))
| MessageInserted (payload_new : MessageRow.t) (resp : Response NameRef)
| MapClick (coords : Coords)                                   (* MapView.onMapClick *)
| SubmitCreate (sessionData : SessionData.t)
               (resp : Response (option Session.t))            (* CreateEventModal.onSubmit *)
| CancelCreate                                                 (* CreateEventModal.onClose *)
| CloseEvent (sessionId : Z) (resp : Response unit)            (* MapView.onCloseEvent *)
| ExtendEvent (sessionId : Z) (resp : Response unit)           (* MapView.onExtendEvent *)
| JoinVibe (sessionId : Z) (resp : Response Session.t)         (* MapView.onJoinVibe *)
| ViewChat                                                     (* MapView.onViewChat *)
| SetUserLocation (loc : Q * Q)                                (* MapView.onSetUserLocation *)
| LeaveVibe (sessionId : Z) (resp : Response unit)             (* VibeChatPanel.onLeaveVibe *)
| SendChat (text : string) (resp : Response unit)              (* VibeChatPanel.onSendMessage *)
| ViewProfile (username : string)
              (resp : Response (option ProfileRow.t))          (* VibeChatPanel.onViewProfile *)
| CloseChat                                                    (* VibeChatPanel.onClose *)
| DismissError
| TabClick (tab : AppTab)
| OpenSessionTypeModal
| CloseSessionTypeModal
| SelectType (type : SessionType)
| CloseSettings
| SaveSettings
| CloseProfileModal.

Definition isSome {A} (o : option A) : bool :=
  match o with Some _ => true | None => false end.

(** [when b c]: the callback [c] of a child rendered under condition [b]. *)
Definition when (b : bool) (c : M State unit) : M State unit :=
  if b then c else ret tt.

Definition step (user : User.t) (ev : Event) : M State unit :=
  st <- get ;;
  (* [if (!sessionValid)] the effects return at once and only the
     "Session validation failed" screen is rendered *)
  if negb (sessionValid st) then ret tt
  else
    match ev with
    | SessionsFetched resp => fetchSessions resp
    | MessagesFetched resp =>
        match activeSession st with
        | Some current => when (isChatVisible st) (fetchMessages current resp)
        | None => ret tt
        end
    | MessageInserted payload_new resp =>
        match activeSession st with
        | Some current =>
            when (isChatVisible st &&
                  Z.eqb (MessageRow.event_id payload_new) (Session.id current))
                 (onMessageInsert payload_new resp)
        | None => ret tt
        end
    | MapClick coords => handleMapClickInCreateMode coords
    | SubmitCreate sessionData resp =>
        when (isSome (newEventCoords st)) (handleCreateSession user sessionData resp)
    | CancelCreate =>
        when (isSome (newEventCoords st))
             (setIsCreateModalOpen false ;; setNewEventCoords None ;; setIsCreateMode false)
    | CloseEvent sessionId resp => handleCloseSession sessionId resp
    | ExtendEvent sessionId resp => handleExtendSession sessionId resp
    | JoinVibe sessionId resp => handleJoinSession user sessionId resp
    | ViewChat => setIsChatVisible true
    | SetUserLocation loc => setUserLocation (Some loc)
    | LeaveVibe sessionId resp =>
        when (isSome (activeSession st)) (handleLeaveSession user sessionId resp)
    | SendChat text resp =>
        when (isSome (activeSession st)) (handleSendMessage user text resp)
    | ViewProfile username resp =>
        when (isSome (activeSession st)) (handleOpenProfile username resp)
    | CloseChat => when (isSome (activeSession st)) (setIsChatVisible false)
    | DismissError => when (isSome (error st)) (setError None)
    | TabClick tab => handleTabClick tab
    | OpenSessionTypeModal => setIsSessionTypeModalOpen true
    | CloseSessionTypeModal => setIsSessionTypeModalOpen false
    | SelectType type =>
        setSelectedSessionType (Some type) ;;
        setIsSessionTypeModalOpen false ;;
        setIsCreateModalOpen true
    | CloseSettings => setIsSettingsModalOpen false
    | SaveSettings => setIsSettingsModalOpen false
    | CloseProfileModal => when (isSome (viewedUser st)) (setIsProfileModalOpen false)
    end.

Fixpoint run (user : User.t) (evs : list Event) : M State unit :=
  match evs with
  | [] => ret tt
  | ev :: rest => step user ev ;; run user rest
  end.

(** [rounds] extensions of [session] in a row, the change feed's reload
    after each showing the duration that was just written. *)
Definition withDuration (d : Z) (s : Session.t) : Session.t :=
  Session.mk (Session.id s) (Session.status s) (Session.lat s) (Session.lng s)
    (Session.creator_id s) d (Session.participants s) (Session.created_at s)
    (Session.creator s).


Inductive reachable (user : User.t) : State -> Prop :=
| reach_init : reachable user init
| reach_step st ev :
    reachable user st -> reachable user (exec (step user ev) st).

(** ** Failure sites

    The remote calls whose [error] result goes through [authExpired]: the
    two fetches, the five lifecycle writes, the message insert and the
    profile view.  A call fails either with an [error] result or by
    raising into the handler's [catch]. *)
Inductive Failed :=
| ErrorResult (e : RemoteError)
| Raised.

Definition failed {A} (resp : Response A) : option Failed :=
  match resp with
  | Success _ => None
  | Failure e => Some (ErrorResult e)
  | Rejected => Some Raised
  end.

Definition failureAt (ev : Event) : option Failed :=
  match ev with
  | SessionsFetched resp => failed resp
  | MessagesFetched resp => failed resp
  | SubmitCreate _ resp => failed resp
  | CloseEvent _ resp => failed resp
  | ExtendEvent _ resp => failed resp
  | JoinVibe _ resp => failed resp
  | LeaveVibe _ resp => failed resp
  | SendChat _ resp => failed resp
  | ViewProfile _ resp => failed resp
  | _ => None
  end.

(** The failure is an [error] result whose text passes [authExpired]. *)
Definition expired (f : Failed) : bool :=
  match f with
  | ErrorResult e => authExpired e
  | Raised => false
  end.

(** ** What is rendered *)

Definition tabEqb (a b : AppTab) : bool :=
  match a, b with
  | Home, Home | Social, Social | Alerts, Alerts | ProfileTab, ProfileTab => true
  | _, _ => false
  end.

(** [['Home', 'Social', 'Alerts'].includes(activeTab) && <PageHeader ... />] *)
Definition headerShown (st : State) : bool :=
  existsb (tabEqb (activeTab st)) [Home; Social; Alerts].

(** [{newEventCoords && <CreateEventModal isOpen={isCreateModalOpen} ... />}] *)
Definition createFormShown (st : State) : bool :=
  isSome (newEventCoords st) && isCreateModalOpen st.

(** [{viewedUser && <ProfileModal isOpen={isProfileModalOpen} ... />}] *)
Definition profileShown (st : State) : bool :=
  isSome (viewedUser st) && isProfileModalOpen st.

(** ** Sequences of feed events *)

(** The row a live insert puts on the message list, if any. *)
Definition delivered (payload_new : MessageRow.t) (resp : Response NameRef)
  : list VibeMessage.t :=
  match resp with
  | Success profile =>
      [VibeMessage.mk payload_new {| ref_username := ref_username profile |}]
  | Failure _ => [VibeMessage.mk payload_new {| ref_username := "Unknown" |}]
  | Rejected => []
  end.


Definition withParticipants (ps : list string) (s : Session.t) : Session.t :=
  Session.mk (Session.id s) (Session.status s) (Session.lat s) (Session.lng s)
    (Session.creator_id s) (Session.duration s) ps (Session.created_at s)
    (Session.creator s).

(** ** The insert callback around its [await]

    The callback reads [payload.new] only.  Up to the [await] it issues
    the sender lookup; the rest runs when that lookup settles, so the
    callbacks of several rows can be under way at once. *)

Definition lookupIssued (payload_new : MessageRow.t) : M State unit :=
  remote (SelectProfileName (MessageRow.sender_id payload_new)).

Definition lookupSettled (payload_new : MessageRow.t) (resp : Response NameRef)
  : M State unit :=
  match resp with
  | Failure error =>
      console (message error) ;;
      updateChatMessages (fun msgs =>
        msgs ++ [VibeMessage.mk payload_new {| ref_username := "Unknown" |}])
  | Success profile =>
      updateChatMessages (fun msgs =>
        msgs ++ [VibeMessage.mk payload_new
                   {| ref_username := ref_username profile |}])
  | Rejected => console "Error handling new message:"
  end.

Inductive FeedStep :=
| Issued (payload_new : MessageRow.t)
| Settled (payload_new : MessageRow.t) (resp : Response NameRef).

Definition feedStep (a : FeedStep) : M State unit :=
  match a with
  | Issued payload_new => lookupIssued payload_new
  | Settled payload_new resp => lookupSettled payload_new resp
  end.

Fixpoint runFeed (steps : list FeedStep) : M State unit :=
  match steps with
  | [] => ret tt
  | a :: rest => feedStep a ;; runFeed rest
  end.

(** The rows put on the list by the lookups that settle, in the order
    they settle. *)
Definition settledRows (steps : list FeedStep) : list VibeMessage.t :=
  flat_map (fun a =>
              match a with
              | Issued _ => []
              | Settled payload_new resp => delivered payload_new resp
              end) steps.

(** The lookups issued, in the order the rows are delivered. *)
Definition issuedLookups (steps : list FeedStep) : list Request :=
  flat_map (fun a =>
              match a with
              | Issued payload_new =>
                  [SelectProfileName (MessageRow.sender_id payload_new)]
              | Settled _ _ => []
              end) steps.

End MainApp.

(* ================================================================== *)
(** * App, the root component (src/unnamed/part_001) *)
(* ================================================================== *)

Module App.

Inductive AuthView := login | signup.

(** The user object of the auth client, with the fields the component
    reads: [id], [aud], [email] and [user_metadata?.{username,bio,privacy}]. *)
Record AuthUser := {
  au_id : string;
  aud : string;
  au_email : option string;
  meta_username : option string;
  meta_bio : option string;
  meta_privacy : option string
}.

Record AuthSession := { user : AuthUser }.

(** [const { data: { session }, error } = await supabase.auth.getSession()].
    The calls of this component sit outside any [try]; they are modelled
    by the result object they are destructured from. *)
Record SessionResult := {
  session : option AuthSession;
  gs_error : option RemoteError
}.

(** [const { data, error } = await ...] of a table query. *)
Inductive Reply (A : Type) :=
| Ok (data : A)
| Err (error : RemoteError).
Arguments Ok {A} data.
Arguments Err {A} error.

Inductive AuthEvent := SIGNED_IN | SIGNED_OUT | OTHER_EVENT.
Inductive Visibility := visible | hidden.

Record State := mkState {
  currentUser : option User.t;
  userRef : option User.t;           (* userRef.current *)
  authView : AuthView;
  loading : bool;
  authListener : bool;               (* the onAuthStateChange subscription is registered *)
  loadingTimer : option N;           (* ms left on the pending loading timeout, if any *)
  unloaded : bool                    (* the document was left by a reload or navigation *)
}.

(** The component once mounted: the initial [useState] values, and the
    loading effect has armed its 10000 ms timeout. *)
Definition mounted : State :=
  {| currentUser := None; userRef := None; authView := login; loading := true;
     authListener := false; loadingTimer := Some 10000%N; unloaded := false |}.

(** After [window.location.reload()] or an assignment to
    [window.location.href] the document and every state cell, listener
    and timer of the component are gone. *)
Definition unloadedPage : State :=
  {| currentUser := None; userRef := None; authView := login; loading := true;
     authListener := false; loadingTimer := None; unloaded := true |}.

(** [setCurrentUser]: the ref and the state cell are written together. *)
Definition setCurrentUser (v : option User.t) : M State unit :=
  modify (fun s => mkState v v (authView s) (loading s) (authListener s)
                           (loadingTimer s) (unloaded s)).

Definition setAuthView (v : AuthView) : M State unit :=
  modify (fun s => mkState (currentUser s) (userRef s) v (loading s)
                           (authListener s) (loadingTimer s) (unloaded s)).

(** [setLoading] together with the effect that depends on [loading]: when
    the value changes the previous run's cleanup clears its timeout, and a
    run with [loading] true arms a new one of 10000 ms. *)
Definition setLoading (v : bool) : M State unit :=
  modify (fun s =>
    if Bool.eqb (loading s) v then s
    else mkState (currentUser s) (userRef s) (authView s) v (authListener s)
                 (if v then Some 10000%N else None) (unloaded s)).

Definition registerAuthListener : M State unit :=
  modify (fun s => mkState (currentUser s) (userRef s) (authView s) (loading s)
                           true (loadingTimer s) (unloaded s)).

Definition setLoadingTimer (v : option N) : M State unit :=
  modify (fun s => mkState (currentUser s) (userRef s) (authView s) (loading s)
                           (authListener s) v (unloaded s)).

Definition unload : M State unit := modify (fun _ => unloadedPage).

(** [x || fallback] on an optional string: absent and empty are falsy. *)
Definition orElse (x : option string) (fallback : string) : string :=
  match x with
  | Some s => if String.eqb s "" then fallback else s
  | None => fallback
  end.

Definition truthy (x : option string) : option string :=
  match x with
  | Some s => if String.eqb s "" then None else Some s
  | None => None
  end.

Definition userOf (authUser : AuthUser) (profile : ProfileRow.t) : User.t :=
  User.mk (au_id authUser) (au_email authUser)
    (Profile.mk (ProfileRow.username profile) (ProfileRow.bio profile)
                (ProfileRow.privacy profile)).

Definition loadUserProfile (authUser : AuthUser)
    (found created : Reply (option ProfileRow.t)) : M State unit :=
  if negb (String.eqb (aud authUser) "authenticated") then
    console "User session detected, but email not confirmed." ;;
    setCurrentUser None
  else
    console "Loading profile" ;;
    remote (SelectProfileById (au_id authUser)) ;;
    match found with
    | Err error =>
        console "Error fetching profile:" ;;
        setCurrentUser None
    | Ok (Some profile) =>
        console "Profile loaded" ;;
        setCurrentUser (Some (userOf authUser profile))
    | Ok None =>
        match truthy (meta_username authUser) with
        | Some newUsername =>
            console "Profile not found. Attempting to create one." ;;
            remote (InsertProfile
              (ProfileRow.mk (au_id authUser) newUsername
                 (orElse (meta_bio authUser) "")
                 (orElse (meta_privacy authUser) "public"))) ;;
            match created with
            | Err insertError =>
                console "Error creating profile fallback:" ;;
                setCurrentUser None
            | Ok (Some newProfile) =>
                console "Successfully created fallback profile." ;;
                setCurrentUser (Some (userOf authUser newProfile))
            | Ok None => ret tt
            end
        | None =>
            console "No profile found and username not found in metadata." ;;
            setCurrentUser None
        end
    end.

(** The callback passed to [supabase.auth.onAuthStateChange]. *)
Definition onAuthStateChange (event : AuthEvent) (s : option AuthSession)
    (found created : Reply (option ProfileRow.t)) : M State unit :=
  console "Auth state changed" ;;
  st <- get ;;
  match event, s with
  | SIGNED_IN, Some s =>
      let same :=
        match userRef st with
        | Some u => String.eqb (au_id (user s)) (User.id u)
        | None => false
        end in
      if negb same then loadUserProfile (user s) found created
      else console "Ignoring redundant SIGNED_IN event for already loaded user."
  | SIGNED_OUT, _ => setCurrentUser None
  | _, _ => ret tt
  end.

Definition initializeAndListen (r : SessionResult)
    (found created : Reply (option ProfileRow.t)) : M State unit :=
  remote AuthGetSession ;;
  match gs_error r with
  | Some error =>
      console "Error getting session:" ;;
      setCurrentUser None
  | None =>
      match session r with
      | Some s =>
          console "Found initial session, loading profile..." ;;
          loadUserProfile (user s) found created
      | None => setCurrentUser None
      end
  end ;;
  setLoading false ;;
  registerAuthListener.

(** [handleLogout].  Its argument is the [error] of [signOut].  The source
    relies on the auth client announcing a completed sign-out to the
    registered listener ("The onAuthStateChange listener will handle
    setting the user to null"): a sign-out without error delivers
    [SIGNED_OUT] to [onAuthStateChange] before the call returns. *)
Definition handleLogout (signOutError : option RemoteError) : M State unit :=
  console "Logging out and clearing all storage..." ;;
  remote AuthSignOut ;;
  st <- get ;;
  match signOutError with
  | None =>
      if authListener st
      then onAuthStateChange SIGNED_OUT None (Ok None) (Ok None)
      else ret tt
  | Some _ => ret tt
  end ;;
  emit LocalStorageClear ;;
  emit SessionStorageClear ;;
  match signOutError with
  | Some error =>
      console "Error during sign out:" ;;
      emit (LocationAssign "/") ;;
      unload
  | None => ret tt
  end.

(** [error || !session || session.user.id !== currentUser.id] *)
Definition invalidOnFocus (r : SessionResult) (cu : User.t) : bool :=
  match gs_error r with
  | Some _ => true
  | None =>
      match session r with
      | None => true
      | Some s => negb (String.eqb (au_id (user s)) (User.id cu))
      end
  end.

(** The [visibilitychange] listener. *)
Definition handleVisibilityChange (visibilityState : Visibility)
    (r : SessionResult) (signOutError : option RemoteError) : M State unit :=
  match visibilityState with
  | hidden => ret tt
  | visible =>
      st <- get ;;
      match currentUser st with
      | None => ret tt
      | Some cu =>
          console "Tab is visible, re-validating session..." ;;
          remote AuthGetSession ;;
          if invalidOnFocus r cu then
            console "Session invalid or mismatched on tab focus! Forcing hard logout." ;;
            alert "Your session has expired or is invalid. The application will now refresh. Please log in again." ;;
            handleLogout signOutError
          else console "Session OK on tab focus."
      end
  end.

Definition handleProfileUpdate (updatedProfile : Profile.t)
    (resp : Reply (option ProfileRow.t)) : M State unit :=
  st <- get ;;
  match currentUser st with
  | None => ret tt
  | Some cu =>
      remote (UpdateProfile (User.id cu) (Profile.bio updatedProfile)
                            (Profile.privacy updatedProfile)) ;;
      match resp with
      | Err error => console "Error updating profile:"
      | Ok (Some data) =>
          st' <- get ;;
          setCurrentUser
            match currentUser st' with
            | Some prevUser =>
                Some (User.mk (User.id prevUser) (User.email prevUser)
                        (Profile.mk (Profile.username (User.profile prevUser))
                                    (ProfileRow.bio data) (ProfileRow.privacy data)))
            | None => None
            end
      | Ok None => ret tt
      end
  end.

(** The callback of the loading timeout. *)
Definition loadingTimeout : M State unit :=
  console "App is taking too long to initialize (>10s). Forcing a hard refresh and clearing storage." ;;
  alert "Application is taking a while to load. We'll perform a quick refresh to resolve any potential issues." ;;
  emit LocalStorageClear ;;
  emit SessionStorageClear ;;
  emit LocationReload ;;
  unload.

(** [ms] milliseconds pass: a pending timeout either comes [ms] closer or,
    when no more than [ms] were left on it, fires (once: it is no longer
    pending when its callback runs). *)
Definition elapse (ms : N) : M State unit :=
  st <- get ;;
  match loadingTimer st with
  | None => ret tt
  | Some remaining =>
      if (ms <? remaining)%N then setLoadingTimer (Some (remaining - ms)%N)
      else setLoadingTimer None ;; loadingTimeout
  end.

Inductive Event :=
| Initialized (r : SessionResult) (found created : Reply (option ProfileRow.t))
| AuthStateChanged (event : AuthEvent) (s : option AuthSession)
                   (found created : Reply (option ProfileRow.t))
| VisibilityChanged (visibilityState : Visibility) (r : SessionResult)
                    (signOutError : option RemoteError)
| LogoutRequested (signOutError : option RemoteError)          (* MainApp.onLogout *)
| ProfileUpdated (updatedProfile : Profile.t)
                 (resp : Reply (option ProfileRow.t))          (* MainApp.onProfileUpdate *)
| SwitchAuthView (v : AuthView)
| Elapsed (ms : N).

Definition step (ev : Event) : M State unit :=
  st <- get ;;
  if unloaded st then ret tt
  else
    match ev with
    | Initialized r found created =>
        (* [initializeAndListen] runs once, from the mount effect *)
        if authListener st then ret tt else initializeAndListen r found created
    | AuthStateChanged event s found created =>
        if authListener st then onAuthStateChange event s found created else ret tt
    | VisibilityChanged visibilityState r signOutError =>
        handleVisibilityChange visibilityState r signOutError
    | LogoutRequested signOutError =>
        (* [MainApp] and its header are rendered, and its timeouts run,
           only once loading is over *)
        if negb (loading st) then handleLogout signOutError else ret tt
    | ProfileUpdated updatedProfile resp =>
        (* [MainApp] is rendered only once loading is over and a user is held *)
        if negb (loading st) && MainApp.isSome (currentUser st)
        then handleProfileUpdate updatedProfile resp else ret tt
    | SwitchAuthView v =>
        if negb (loading st) && negb (MainApp.isSome (currentUser st))
        then setAuthView v else ret tt
    | Elapsed ms => elapse ms
    end.

Fixpoint run (evs : list Event) : M State unit :=
  match evs with
  | [] => ret tt
  | ev :: rest => step ev ;; run rest
  end.

Inductive reachable : State -> Prop :=
| reach_mounted : reachable mounted
| reach_step st ev : reachable st -> reachable (exec (step ev) st).

(** The component while start-up is pending, with [remaining] ms left on
    the loading timeout. *)
Definition waiting (remaining : N) : State :=
  {| currentUser := None; userRef := None; authView := login; loading := true;
     authListener := false; loadingTimer := Some remaining; unloaded := false |}.

Definition isInitialized (ev : Event) : bool :=
  match ev with
  | Initialized _ _ _ => true
  | _ => false
  end.

(** The time that passes during a sequence of events. *)
Fixpoint elapsedMs (evs : list Event) : N :=
  match evs with
  | [] => 0
  | Elapsed ms :: rest => ms + elapsedMs rest
  | _ :: rest => elapsedMs rest
  end.

(** The forced-logout sequence, as a trace: sign-out, both storages
    cleared, and the hard navigation when the sign-out reported an error. *)
Definition logoutTrace (listening : bool) (signOutError : option RemoteError)
  : list Effect :=
  [Console "Logging out and clearing all storage..."; Remote AuthSignOut] ++
  match signOutError with
  | None => if listening then [Console "Auth state changed"] else []
  | Some _ => []
  end ++
  [LocalStorageClear; SessionStorageClear] ++
  match signOutError with
  | Some _ => [Console "Error during sign out:"; LocationAssign "/"]
  | None => []
  end.

(** What the loading timeout does when it fires. *)
Definition guardTrace : list Effect :=
  [Console "App is taking too long to initialize (>10s). Forcing a hard refresh and clearing storage.";
   Alert "Application is taking a while to load. We'll perform a quick refresh to resolve any potential issues.";
   LocalStorageClear; SessionStorageClear; LocationReload].

(** What the component returns: the spinner while loading, the login or
    sign-up form without a user, and [MainApp] with one. *)
Inductive Screen :=
| Initializing
| LoginScreen
| SignUpScreen
| Main (user : User.t).

Definition screen (st : State) : Screen :=
  if loading st then Initializing
  else
    match currentUser st with
    | None =>
        match authView st with
        | login => LoginScreen
        | signup => SignUpScreen
        end
    | Some u => Main u
    end.

End App.

(* ================================================================== *)
(** * SessionTypeModal (src/unnamed/part_001) *)
(* ================================================================== *)

Module SessionTypeModal.

Record Choice := {
  type : SessionType;
  emoji : string;
  title : string;
  description : string
}.

Definition sessionOptions : list Choice :=
  [ {| type := vibe; emoji := "🎉"; title := "Vibe";
       description := "Hang out with others" |};
    {| type := seek; emoji := "🙋"; title := "Seek";
       description := "Get help or learn something" |};
    {| type := cookie; emoji := "🍪"; title := "Cookie";
       description := "Teach or share a skill" |};
    {| type := borrow; emoji := "📦"; title := "Borrow";
       description := "Request or lend an item" |} ].

(** The buttons of the dialog, by their React key [option.type]: nothing
    is rendered when [isOpen] is false, one button per option otherwise.
    A click on a button passes its type to [onSelectType]. *)
Definition buttons (isOpen : bool) : list SessionType :=
  if isOpen then map type sessionOptions else [].

Definition sessionTypeEqDec (a b : SessionType) : {a = b} + {a <> b}.
Proof. decide equality. Defined.

End SessionTypeModal.

(* ================================================================== *)
(** * Sample data *)
(* ================================================================== *)

Module Sample.

Definition alice : User.t :=
  User.mk "u1" (Some "alice@example.org") (Profile.mk "alice" "" "public").

Definition picnic (participants : list string) : Session.t :=
  Session.mk 1 active (40 # 1) (-739 # 10) "u1" 30 participants
    "2024-05-01T10:00:00Z" (Some {| ref_username := "alice" |}).

Definition chess (participants : list string) : Session.t :=
  Session.mk 2 active (41 # 1) (-74 # 1) "u2" 45 participants
    "2024-05-01T11:00:00Z" (Some {| ref_username := "bob" |}).

Definition here : Coords := {| c_lat := 40 # 1; c_lng := -739 # 10 |}.

Definition halfHour : SessionData.t :=
  SessionData.mk active 30 "2024-05-01T12:00:00Z".

Definition hello : MessageRow.t :=
  MessageRow.mk 7 2 "u1" "hello" "2024-05-01T11:05:00Z".

Definition jwtExpired : RemoteError := {| message := "JWT expired" |}.
Definition timedOut : RemoteError := {| message := "network timeout" |}.

(** Alice starts a create on the map, and her join of the chess session
    settles before she submits the form. *)
Definition joinedWhileCreating : MainApp.State :=
  exec (MainApp.run alice
          [MainApp.SessionsFetched (Success [chess ["u2"]]);
           MainApp.MapClick here;
           MainApp.JoinVibe 2 (Success (chess ["u2"; "u1"]))])
       MainApp.init.

(** Alice, already a participant of the picnic, opens the application. *)
Definition returning : MainApp.State :=
  exec (MainApp.run alice [MainApp.SessionsFetched (Success [picnic ["u1"]])])
       MainApp.init.

(** Join, see the feed's refresh, leave, and join again before the next
    refresh arrives. *)
Definition rejoin : list MainApp.Event :=
  [MainApp.SessionsFetched (Success [chess []]);
   MainApp.JoinVibe 2 (Success (chess ["u1"]));
   MainApp.SessionsFetched (Success [chess ["u1"]]);
   MainApp.LeaveVibe 2 (Success tt);
   MainApp.JoinVibe 2 (Success (chess ["u1"; "u1"]))].

(** Alice has joined the chess session and opened its chat. *)
Definition chatting : MainApp.State :=
  exec (MainApp.run alice
          [MainApp.SessionsFetched (Success [picnic ["u1"]; chess ["u2"]]);
           MainApp.JoinVibe 2 (Success (chess ["u2"; "u1"]));
           MainApp.ViewChat])
       MainApp.init.

Definition aliceAuth : App.AuthUser :=
  {| App.au_id := "u1"; App.aud := "authenticated";
     App.au_email := Some "alice@example.org";
     App.meta_username := Some "alice"; App.meta_bio := None;
     App.meta_privacy := None |}.

Definition bobAuth : App.AuthUser :=
  {| App.au_id := "u2"; App.aud := "authenticated";
     App.au_email := Some "bob@example.org";
     App.meta_username := Some "bob"; App.meta_bio := None;
     App.meta_privacy := None |}.

Definition aliceRow : ProfileRow.t := ProfileRow.mk "u1" "alice" "" "public".

Definition signedIn (u : App.AuthUser) : App.SessionResult :=
  {| App.session := Some {| App.user := u |}; App.gs_error := None |}.

Definition noSession : App.SessionResult :=
  {| App.session := None; App.gs_error := None |}.

(** The root component after a start-up that found Alice's session. *)
Definition loggedIn : App.State :=
  exec (App.step (App.Initialized (signedIn aliceAuth)
                    (App.Ok (Some aliceRow)) (App.Ok None)))
       App.mounted.

End Sample.

(* ================================================================== *)
(** * Properties of MainApp *)
(* ================================================================== *)

Import MainApp.

(** Unfolds a handler down to the pair of final state and trace. *)
Ltac open_handler :=
  unfold exec, trace, MainApp.step, when,
    fetchSessions, fetchMessages, onMessageInsert,
    handleMapClickInCreateMode, handleCreateSession, handleCloseSession,
    handleExtendSession, handleJoinSession, handleLeaveSession,
    handleSendMessage, handleOpenProfile, handleTabClick, sessionExpired,
    setActiveTab, setIsCreateMode, setIsCreateModalOpen, setNewEventCoords,
    setUserLocation, setSessions, setActiveSession, setIsChatVisible,
    setChatMessages, updateChatMessages, setIsSettingsModalOpen,
    setIsProfileModalOpen, setViewedUser, setError,
    setIsSessionTypeModalOpen, setSelectedSessionType,
    console, alert, remote, setTimeout, bind, get, modify, emit, ret.

(** Case analysis on an innermost test the opened handler still branches on. *)
Ltac split_step :=
  match goal with
  | |- context [match ?x with _ => _ end] =>
      lazymatch x with
      | context [match _ with _ => _ end] => fail
      | _ => destruct x eqn:?
      end
  end; cbn.

Ltac split_handler := repeat split_step.

(** ** [includes] on the texts the classification looks for *)

Example includes_jwt : includes "JWT expired" "JWT" = true.
Proof. reflexivity. Qed.

Example includes_session_inside :
  includes "Auth session missing!" "session" = true.
Proof. reflexivity. Qed.

Example includes_is_case_sensitive :
  includes "Session not found" "session" = false.
Proof. reflexivity. Qed.

Example includes_empty_needle : includes "" "" = true.
Proof. reflexivity. Qed.

Lemma includes_prefix haystack needle :
  String.prefix needle haystack = true -> includes haystack needle = true.
Proof. intros P. destruct haystack; cbn [includes]; now rewrite P. Qed.

Lemma includes_later c haystack needle :
  includes haystack needle = true -> includes (String c haystack) needle = true.
Proof.
  intros I. cbn [includes].
  destruct (String.prefix needle (String c haystack)); [ reflexivity | exact I ].
Qed.

(** [includes] finds the needle wherever it sits. *)
Lemma includes_substring before needle after :
  includes (before ++ needle ++ after)%string needle = true.
Proof.
  induction before as [ | c before IH].
  - apply includes_prefix. cbn [String.append].
    induction needle as [ | c needle IH]; [ now destruct after | ].
    cbn. destruct (Ascii.ascii_dec c c) as [ _ | N ]; [ exact IH | now elim N ].
  - cbn [String.append]. now apply includes_later.
Qed.

(** ** Running several events *)

Lemma exec_bind {S A B} (c : M S A) (k : A -> M S B) (s : S) :
  exec (bind c k) s = exec (k (fst (fst (c s)))) (exec c s).
Proof.
  unfold exec, bind. destruct (c s) as [[a s1] t1]. cbn.
  destruct (k a s1) as [[b s2] t2]. reflexivity.
Qed.

Lemma trace_bind {S A B} (c : M S A) (k : A -> M S B) (s : S) :
  trace (bind c k) s = trace c s ++ trace (k (fst (fst (c s)))) (exec c s).
Proof.
  unfold trace, exec, bind. destruct (c s) as [[a s1] t1]. cbn.
  destruct (k a s1) as [[b s2] t2]. reflexivity.
Qed.

Lemma exec_run_cons user ev evs st :
  exec (MainApp.run user (ev :: evs)) st
  = exec (MainApp.run user evs) (exec (MainApp.step user ev) st).
Proof. cbn [MainApp.run]. apply exec_bind. Qed.

Lemma trace_run_cons user ev evs st :
  trace (MainApp.run user (ev :: evs)) st
  = trace (MainApp.step user ev) st
    ++ trace (MainApp.run user evs) (exec (MainApp.step user ev) st).
Proof. cbn [MainApp.run]. apply trace_bind. Qed.

Lemma reachable_run user evs : forall st,
  MainApp.reachable user st ->
  MainApp.reachable user (exec (MainApp.run user evs) st).
Proof.
  induction evs as [ | ev evs IH]; intros st R.
  - exact R.
  - rewrite exec_run_cons. apply IH. now constructor.
Qed.

(** ** [sessionValid] never changes: the guards on it always pass *)

Lemma sessionValid_step user ev st :
  sessionValid (exec (MainApp.step user ev) st) = sessionValid st.
Proof.
  open_handler. cbn.
  destruct (sessionValid st) eqn:V; cbn; [ | exact V ].
  destruct ev; cbn; split_handler; try assumption; try reflexivity.
Qed.

Lemma sessionValid_reachable user st :
  MainApp.reachable user st -> sessionValid st = true.
Proof.
  induction 1 as [ | st ev R IH].
  - reflexivity.
  - now rewrite sessionValid_step.
Qed.

(** ** Participant rosters (C1) *)

Lemma NoDup_snoc (l : list string) (x : string) :
  NoDup (l ++ [x]) <-> NoDup l /\ ~ In x l.
Proof.
  split.
  - intros H. split.
    + now apply NoDup_app_remove_r in H.
    + apply NoDup_rev in H. rewrite rev_app_distr in H. cbn in H.
      apply NoDup_cons_iff in H. destruct H as [H _].
      intros I. apply H. now apply in_rev in I.
  - intros [H N]. apply NoDup_app; [ exact H | repeat constructor; intros [] | ].
    intros a I [ <- | [] ]. now apply N.
Qed.

Lemma leave_filter_drops (l : list string) (x : string) :
  ~ In x (filter (fun p => negb (String.eqb p x)) l).
Proof.
  intros I. apply filter_In in I. destruct I as [_ I].
  now rewrite String.eqb_refl in I.
Qed.

(** C1, as the code has it.  With the session found in the local cache:
    a join (which needs the actor to hold no active-session reference)
    writes the cached roster with the actor's id appended, without looking
    for the id in it, so what it writes is free of repetitions exactly
    when the cached roster is and does not hold the actor's id; with a
    reference held, a join writes nothing.  A leave writes the cached
    roster without any occurrence of the actor's id, and keeps a roster
    free of repetitions so. *)
Theorem roster_written_by_join_and_leave
    (user : User.t) (st : State) (sessionId : Z) (session : Session.t)
    (joined : Response Session.t) (gone : Response unit) :
  sessionValid st = true ->
  findSession sessionId (sessions st) = Some session ->
  let cached := Session.participants session in
  let kept := filter (fun p => negb (String.eqb p (User.id user))) cached in
  (activeSession st = None ->
   participantWrites (trace (handleJoinSession user sessionId joined) st)
   = [(sessionId, cached ++ [User.id user])]) /\
  (activeSession st <> None ->
   participantWrites (trace (handleJoinSession user sessionId joined) st) = []) /\
  (NoDup (cached ++ [User.id user])
   <-> NoDup cached /\ ~ In (User.id user) cached) /\
  participantWrites (trace (handleLeaveSession user sessionId gone) st)
  = [(sessionId, kept)] /\
  ~ In (User.id user) kept /\
  (NoDup cached -> NoDup kept).
Proof.
  intros V F cached kept.
  split; [ | split; [ | split; [ | split; [ | split ] ] ] ].
  - intros A. open_handler. cbn. rewrite V, A, F. cbn.
    destruct joined; cbn; split_handler; reflexivity.
  - intros A. open_handler. cbn. rewrite V. cbn.
    destruct (activeSession st); [ reflexivity | now elim A ].
  - apply NoDup_snoc.
  - open_handler. cbn. rewrite V, F. cbn.
    destruct gone; cbn; split_handler; reflexivity.
  - apply leave_filter_drops.
  - apply NoDup_filter.
Qed.

Lemma roster_written_by_join_and_leave_witness :
  sessionValid Sample.returning = true /\
  findSession 1 (sessions Sample.returning) = Some (Sample.picnic ["u1"]) /\
  participantWrites
    (trace (handleLeaveSession Sample.alice 1 (Success tt)) Sample.returning)
  = [(1%Z, [])].
Proof.
  split; [ reflexivity | split; [ reflexivity | ] ].
  exact (proj1 (proj2 (proj2 (proj2
    (roster_written_by_join_and_leave Sample.alice Sample.returning 1
       (Sample.picnic ["u1"]) (Success (Sample.picnic ["u1"; "u1"]))
       (Success tt) eq_refl eq_refl))))).
Defined.

(** C1 fails as stated.  A join by an actor whose id is already in the
    roster writes the id a second time: on opening the application while
    already a participant, and within one run of join, leave, join on one
    session when the second join reads the roster cached before the
    leave. *)
Lemma join_by_member_writes_duplicate :
  MainApp.reachable Sample.alice Sample.returning /\
  findSession 1 (sessions Sample.returning) = Some (Sample.picnic ["u1"]) /\
  NoDup (Session.participants (Sample.picnic ["u1"])) /\
  participantWrites
    (trace (MainApp.step Sample.alice
              (JoinVibe 1 (Success (Sample.picnic ["u1"; "u1"]))))
           Sample.returning)
  = [(1%Z, ["u1"; "u1"])] /\
  participantWrites (trace (MainApp.run Sample.alice Sample.rejoin) MainApp.init)
  = [(2%Z, ["u1"]); (2%Z, []); (2%Z, ["u1"; "u1"])] /\
  ~ NoDup ["u1"; "u1"].
Proof.
  split; [ apply reachable_run; constructor | ].
  split; [ reflexivity | ].
  split; [ repeat constructor; intros [] | ].
  split; [ reflexivity | ].
  split; [ reflexivity | ].
  intros H. apply NoDup_cons_iff in H. destruct H as [H _].
  apply H. now left.
Qed.

(** ** The one-session rule (C2) *)

(** With a reference held, a join alerts and does nothing else. *)
Lemma join_refused_in_session user st sessionId resp current :
  sessionValid st = true ->
  activeSession st = Some current ->
  exec (handleJoinSession user sessionId resp) st = st /\
  trace (handleJoinSession user sessionId resp) st
  = [Alert "You're already in a session. Please leave it before joining another."].
Proof.
  intros V A. open_handler. cbn. rewrite V, A. cbn. now split.
Qed.

(** With a reference held, the map click that starts a create alerts,
    leaves create mode, and neither stores the coordinates nor opens the
    form. *)
Lemma map_click_refused_in_session st coords current :
  activeSession st = Some current ->
  exec (handleMapClickInCreateMode coords) st = withIsCreateMode false st /\
  trace (handleMapClickInCreateMode coords) st
  = [Alert "You are already in a session. Leave or close your current session to create a new one."].
Proof.
  intros A. open_handler. cbn. rewrite A. cbn. now split.
Qed.

(** With no reference held, a join of a cached session issues its write
    and a map click opens the create form. *)
Lemma join_and_map_click_proceed user st sessionId resp session coords :
  sessionValid st = true ->
  activeSession st = None ->
  findSession sessionId (sessions st) = Some session ->
  remoteCalls (trace (handleJoinSession user sessionId resp) st)
  = [UpdateParticipants sessionId (Session.participants session ++ [User.id user])] /\
  exec (handleMapClickInCreateMode coords) st
  = withIsCreateModalOpen true (withNewEventCoords (Some coords) st).
Proof.
  intros V A F. open_handler. cbn. rewrite V, A, F. cbn.
  split; [ | reflexivity ].
  destruct resp; cbn; split_handler; reflexivity.
Qed.

(** C2 at the create submission.  [handleCreateSession] tests the stored
    coordinates and [sessionValid] only: submitted while a reference is
    held, it alerts nobody, issues the insert, and replaces the reference. *)
Theorem create_submitted_in_session_inserts :
  let st := Sample.joinedWhileCreating in
  let c := MainApp.step Sample.alice
             (SubmitCreate Sample.halfHour (Success (Some (Sample.picnic ["u1"])))) in
  MainApp.reachable Sample.alice st /\
  activeSession st = Some (Sample.chess ["u2"; "u1"]) /\
  alerts (trace c st) = [] /\
  remoteCalls (trace c st)
  = [InsertSession
       {| ns_status := active; ns_lat := 40 # 1; ns_lng := -739 # 10;
          ns_creator_id := "u1"; ns_duration := 30; ns_participants := ["u1"];
          ns_created_at := "2024-05-01T12:00:00Z" |}] /\
  activeSession (exec c st) = Some (Sample.picnic ["u1"]).
Proof.
  cbv zeta. split; [ apply reachable_run; constructor | ].
  repeat split; reflexivity.
Qed.

(** ** Failure classification (C4) *)

(** C4, as the code has it.  At the call sites of [failureAt], a failed
    call is the only one its handler issues; an [error] result whose text
    contains "JWT" or "session" sets the session-expired banner and
    schedules the logout callback after 2000 ms; any other failure
    schedules nothing and changes at most the banner. *)
Theorem classified_failure_handling
    (user : User.t) (ev : Event) (f : Failed) (st : State) :
  failureAt ev = Some f ->
  remoteCalls (trace (MainApp.step user ev) st) <> [] ->
  let st' := exec (MainApp.step user ev) st in
  let t := trace (MainApp.step user ev) st in
  length (remoteCalls t) = 1%nat /\
  (expired f = true ->
   st' = withError (Some "Session expired. Please log in again.") st /\
   timeouts t = [(OnLogout, 2000%N)]) /\
  (expired f = false ->
   timeouts t = [] /\
   (st' = st \/ exists banner, st' = withError (Some banner) st)).
Proof.
  intros F. open_handler. cbn.
  destruct (sessionValid st) eqn:V; cbn; [ | intros C; now elim C ].
  destruct ev; cbn in F; try discriminate;
    destruct resp; cbn in F; try discriminate;
    injection F as <-; cbn [expired]; cbn;
    split_handler; intros C;
    try (now elim C);
    (split; [ reflexivity | ]);
    (split; intros X);
    first [ discriminate X
          | congruence
          | now split
          | split; [ reflexivity | ];
            first [ left; reflexivity | right; eexists; reflexivity ] ].
Qed.

Lemma classified_failure_handling_witness :
  failureAt (CloseEvent 2 (Failure Sample.jwtExpired))
  = Some (ErrorResult Sample.jwtExpired) /\
  timeouts (trace (MainApp.step Sample.alice
                     (CloseEvent 2 (Failure Sample.jwtExpired)))
                  Sample.chatting)
  = [(OnLogout, 2000%N)].
Proof.
  split; [ reflexivity | ].
  refine (proj2 (proj1 (proj2
    (classified_failure_handling Sample.alice
       (CloseEvent 2 (Failure Sample.jwtExpired))
       (ErrorResult Sample.jwtExpired) Sample.chatting
       eq_refl _)) eq_refl)).
  vm_compute. discriminate.
Defined.

(** C4 fails as stated.  The sender lookup of the live message feed is a
    remote call too; when it fails with the text "JWT expired" no banner
    is set and no logout is scheduled. *)
Lemma lookup_failure_is_not_classified :
  let c := MainApp.step Sample.alice
             (MessageInserted Sample.hello (Failure Sample.jwtExpired)) in
  authExpired Sample.jwtExpired = true /\
  remoteCalls (trace c Sample.chatting) = [SelectProfileName "u1"] /\
  timeouts (trace c Sample.chatting) = [] /\
  error (exec c Sample.chatting) = None.
Proof. repeat split; reflexivity. Qed.

(** ** Closing and leaving (C5, C10) *)

(** C5, as the code has it.  A close writes [status = closed] for the
    given id.  When the write succeeds, the reference is cleared and the
    chat hidden if the id is that of the active session, and nothing
    changes otherwise.  When the write fails, the reference and the chat
    visibility stay as they were: an [error] result whose text contains
    "JWT" or "session" sets the session-expired banner, any other failure
    changes no state. *)
Theorem close_session_frame (st : State) (sessionId : Z) (resp : Response unit) :
  sessionValid st = true ->
  let c := handleCloseSession sessionId resp in
  remoteCalls (trace c st) = [UpdateStatus sessionId closed] /\
  match resp with
  | Success _ =>
      if isActiveId (activeSession st) sessionId
      then exec c st = withIsChatVisible false (withActiveSession None st)
      else exec c st = st
  | Failure e =>
      activeSession (exec c st) = activeSession st /\
      isChatVisible (exec c st) = isChatVisible st /\
      exec c st
      = if authExpired e
        then withError (Some "Session expired. Please log in again.") st
        else st
  | Rejected => exec c st = st
  end.
Proof.
  intros V. open_handler. cbn. rewrite V. cbn.
  destruct resp as [ [] | e | ]; cbn.
  - destruct (isActiveId (activeSession st) sessionId); cbn; now split.
  - destruct (authExpired e); cbn; repeat split; reflexivity.
  - now split.
Qed.

Lemma close_session_frame_witness :
  sessionValid Sample.chatting = true /\
  exec (handleCloseSession 2 (Success tt)) Sample.chatting
  = withIsChatVisible false (withActiveSession None Sample.chatting).
Proof.
  split; [ reflexivity | ].
  exact (proj2 (close_session_frame Sample.chatting 2 (Success tt) eq_refl)).
Defined.

(** C5 fails as stated.  A close whose write fails with the text
    "JWT expired" changes local state: it sets the banner. *)
Lemma close_failure_sets_banner :
  let c := handleCloseSession 2 (Failure Sample.jwtExpired) in
  error Sample.chatting = None /\
  error (exec c Sample.chatting) = Some "Session expired. Please log in again." /\
  exec c Sample.chatting <> Sample.chatting.
Proof.
  cbv zeta. split; [ reflexivity | ]. split; [ reflexivity | ].
  intros H. apply (f_equal error) in H. vm_compute in H. discriminate H.
Qed.

(** C10.  Whenever a leave reaches its write and the write succeeds, the
    reference is cleared and the chat hidden, whatever session the
    reference was for; a successful close of a session other than the
    active one leaves both as they are. *)
Theorem leave_clears_whatever_is_active
    (user : User.t) (st : State) (sessionId : Z) (session : Session.t) :
  sessionValid st = true ->
  findSession sessionId (sessions st) = Some session ->
  exec (handleLeaveSession user sessionId (Success tt)) st
  = withIsChatVisible false (withActiveSession None st) /\
  activeSession (exec (handleLeaveSession user sessionId (Success tt)) st) = None /\
  isChatVisible (exec (handleLeaveSession user sessionId (Success tt)) st) = false /\
  (isActiveId (activeSession st) sessionId = false ->
   exec (handleCloseSession sessionId (Success tt)) st = st).
Proof.
  intros V F. open_handler. cbn. rewrite V, F. cbn.
  repeat split. intros N. now rewrite N.
Qed.

(** Alice, active in session 2, leaves session 1: her reference to
    session 2 is dropped, where closing session 1 keeps it. *)
Lemma leave_clears_whatever_is_active_witness :
  activeSession Sample.chatting = Some (Sample.chess ["u2"; "u1"]) /\
  activeSession (exec (handleLeaveSession Sample.alice 1 (Success tt)) Sample.chatting)
  = None /\
  exec (handleCloseSession 1 (Success tt)) Sample.chatting = Sample.chatting.
Proof.
  pose proof (leave_clears_whatever_is_active Sample.alice Sample.chatting 1
                (Sample.picnic ["u1"]) eq_refl eq_refl) as (_ & L & _ & C).
  split; [ reflexivity | ]. split; [ exact L | ]. apply C. reflexivity.
Defined.

(** ** Chat (C6, C7) *)


Lemma run_get {S A} (k : S -> M S A) (s : S) :
  bind get k s = k s s.
Proof. unfold bind, get. destruct (k s s) as [[b s2] t2]. reflexivity. Qed.


(** While the chat of the active session is shown, a row of that session
    inserted remotely reaches the insert callback. *)
Lemma step_inserted user payload_new resp st current :
  sessionValid st = true ->
  activeSession st = Some current ->
  isChatVisible st = true ->
  MessageRow.event_id payload_new = Session.id current ->
  MainApp.step user (MessageInserted payload_new resp) st
  = onMessageInsert payload_new resp st.
Proof.
  intros V A Vis E. unfold MainApp.step.
  rewrite run_get, V, A, Vis, E, Z.eqb_refl. reflexivity.
Qed.



(** The callback itself, on any state: an error result of the lookup
    appends the row under "Unknown". *)
Theorem lookup_failure_appends_unknown
    (st : State) (payload_new : MessageRow.t) (e : RemoteError) :
  exec (onMessageInsert payload_new (Failure e)) st
  = withChatMessages
      (chatMessages st
       ++ [VibeMessage.mk payload_new {| ref_username := "Unknown" |}]) st /\
  trace (onMessageInsert payload_new (Failure e)) st
  = [Remote (SelectProfileName (MessageRow.sender_id payload_new));
     Console (message e)].
Proof. split; reflexivity. Qed.

(** The same through the subscription, which is live while the chat of
    the active session is shown and delivers that session's rows. *)
Lemma unknown_sender_through_subscription user st current payload_new e :
  sessionValid st = true ->
  activeSession st = Some current ->
  isChatVisible st = true ->
  MessageRow.event_id payload_new = Session.id current ->
  chatMessages (exec (MainApp.step user (MessageInserted payload_new (Failure e))) st)
  = chatMessages st ++ [VibeMessage.mk payload_new {| ref_username := "Unknown" |}].
Proof.
  intros V A Vis E. open_handler. cbn.
  rewrite V, A, Vis, E, Z.eqb_refl. reflexivity.
Qed.

(** C7, as the code has it.  While the chat of the active session is
    shown, a live insert of one of its rows whose sender lookup returns an
    error puts that row at the end of the message list under the name
    "Unknown", whatever the error says and whatever the list holds.  The
    lookup is the only remote call, nobody is alerted and nothing is
    scheduled; the subscription stays live and the banner, the cached
    sessions and the active session are as before. *)
Theorem lookup_error_keeps_row_as_unknown
    (user : User.t) (st : State) (current : Session.t)
    (payload_new : MessageRow.t) (e : RemoteError) :
  sessionValid st = true ->
  activeSession st = Some current ->
  isChatVisible st = true ->
  MessageRow.event_id payload_new = Session.id current ->
  let c := MainApp.step user (MessageInserted payload_new (Failure e)) in
  chatMessages (exec c st)
  = chatMessages st ++ [VibeMessage.mk payload_new {| ref_username := "Unknown" |}] /\
  last (chatMessages (exec c st))
       (VibeMessage.mk payload_new {| ref_username := "" |})
  = VibeMessage.mk payload_new {| ref_username := "Unknown" |} /\
  remoteCalls (trace c st)
  = [SelectProfileName (MessageRow.sender_id payload_new)] /\
  alerts (trace c st) = [] /\
  timeouts (trace c st) = [] /\
  activeSession (exec c st) = Some current /\
  isChatVisible (exec c st) = true /\
  sessionValid (exec c st) = true /\
  sessions (exec c st) = sessions st /\
  error (exec c st) = error st.
Proof.
  intros V A Vis E c.
  assert (S : c st = onMessageInsert payload_new (Failure e) st)
    by (unfold c; now apply (step_inserted user payload_new (Failure e) st current)).
  unfold exec, trace. rewrite S. cbn.
  split; [ reflexivity | ].
  split; [ apply last_last | ].
  repeat split; assumption.
Qed.

Lemma lookup_error_keeps_row_as_unknown_witness :
  chatMessages
    (exec (MainApp.step Sample.alice
             (MessageInserted Sample.hello (Failure Sample.timedOut)))
          Sample.chatting)
  = [VibeMessage.mk Sample.hello {| ref_username := "Unknown" |}].
Proof.
  exact (proj1 (lookup_error_keeps_row_as_unknown Sample.alice Sample.chatting
                  (Sample.chess ["u2"; "u1"]) Sample.hello Sample.timedOut
                  eq_refl eq_refl eq_refl eq_refl)).
Defined.

(** C7 fails as stated.  When the lookup raises instead of returning an
    error, the callback's [catch] logs and the row is not appended. *)
Lemma raising_lookup_drops_row :
  let c := MainApp.step Sample.alice (MessageInserted Sample.hello Rejected) in
  trace c Sample.chatting
  = [Remote (SelectProfileName "u1"); Console "Error handling new message:"] /\
  chatMessages Sample.chatting = [] /\
  chatMessages (exec c Sample.chatting) = [] /\
  ~ In (VibeMessage.mk Sample.hello {| ref_username := "Unknown" |})
       (chatMessages (exec c Sample.chatting)).
Proof.
  cbv zeta. split; [ reflexivity | ]. split; [ reflexivity | ].
  split; [ reflexivity | intros [] ].
Qed.

(** ** Extending (C8) *)

(** Sums that stay within 2^53 in magnitude are exact. *)
Lemma roundDouble_exact z : (Z.abs z <= 2 ^ 53)%Z -> roundDouble z = z.
Proof.
  intros B. unfold roundDouble.
  destruct (Z.eq_dec (Z.abs z) (2 ^ 53)) as [E | N].
  - rewrite E. change (Z.log2 (2 ^ 53) - 52 <=? 0)%Z with false. cbv iota zeta.
    change (2 ^ (Z.log2 (2 ^ 53) - 52))%Z with 2%Z.
    change (2 ^ 53 / 2)%Z with (2 ^ 52)%Z. change (2 ^ 53 mod 2)%Z with 0%Z.
    change (2 / 2)%Z with 1%Z. cbn.
    change (2 ^ 53)%Z with 9007199254740992%Z in E. lia.
  - assert (L : (Z.log2 (Z.abs z) - 52 <= 0)%Z).
    { destruct (Z.eq_dec (Z.abs z) 0) as [Z0 | NZ].
      - rewrite Z0. cbn. lia.
      - assert (Z.log2 (Z.abs z) < 53)%Z; [ | lia ].
        apply Z.log2_lt_pow2; lia. }
    apply Z.leb_le in L. now rewrite L.
Qed.



Lemma jsAdd_exact d :
  (Z.abs (d + 15) <= 2 ^ 53)%Z -> jsAdd d 15 = (d + 15)%Z.
Proof. apply roundDouble_exact. Qed.


Lemma extend_request st sessionId resp session :
  sessionValid st = true ->
  findSession sessionId (sessions st) = Some session ->
  remoteCalls (trace (handleExtendSession sessionId resp) st)
  = [UpdateDuration sessionId (jsAdd (Session.duration session) 15)].
Proof.
  intros V F. open_handler. cbn. rewrite V, F. cbn.
  destruct resp; cbn; split_handler; reflexivity.
Qed.

(** C8, as the code has it.  An extend of a session found in the local
    cache writes the JS sum of the cached duration and 15 and nothing
    else, with no test of the result against any limit; the sum is the
    cached duration plus exactly 15 whenever that is at most 2^53 in
    magnitude.  An extend of a session that is not in the cache does
    nothing. *)
Theorem extend_writes_js_sum
    (st : State) (sessionId : Z) (resp : Response unit) :
  sessionValid st = true ->
  match findSession sessionId (sessions st) with
  | Some session =>
      remoteCalls (trace (handleExtendSession sessionId resp) st)
      = [UpdateDuration sessionId (jsAdd (Session.duration session) 15)] /\
      ((Z.abs (Session.duration session + 15) <= 2 ^ 53)%Z ->
       remoteCalls (trace (handleExtendSession sessionId resp) st)
       = [UpdateDuration sessionId (Session.duration session + 15)%Z])
  | None =>
      trace (handleExtendSession sessionId resp) st = [] /\
      exec (handleExtendSession sessionId resp) st = st
  end.
Proof.
  intros V. destruct (findSession sessionId (sessions st)) as [session | ] eqn:F.
  - pose proof (extend_request st sessionId resp session V F) as T.
    split; [ exact T | ].
    intros B. rewrite T. now rewrite (jsAdd_exact _ B).
  - open_handler. cbn. rewrite V, F. now split.
Qed.

Lemma extend_writes_js_sum_witness :
  remoteCalls (trace (handleExtendSession 2 (Success tt)) Sample.chatting)
  = [UpdateDuration 2 60] /\
  trace (handleExtendSession 9 (Success tt)) Sample.chatting = [].
Proof.
  split.
  - refine (proj2 (extend_writes_js_sum Sample.chatting 2 (Success tt) eq_refl) _).
    vm_compute. discriminate.
  - exact (proj1 (extend_writes_js_sum Sample.chatting 9 (Success tt) eq_refl)).
Defined.

(** C8 fails as stated.  With 2^53 minutes cached, a value a JS number
    holds, the extend writes 16 more, not 15. *)
Lemma extend_of_2_53_adds_16 :
  let long := withDuration (2 ^ 53) (Sample.chess ["u2"]) in
  let st := exec (MainApp.step Sample.alice (SessionsFetched (Success [long])))
                 MainApp.init in
  isNumber (Session.duration long) /\
  MainApp.reachable Sample.alice st /\
  remoteCalls (trace (handleExtendSession 2 (Success tt)) st)
  = [UpdateDuration 2 (2 ^ 53 + 16)] /\
  (2 ^ 53 + 16 <> 2 ^ 53 + 15)%Z.
Proof.
  cbv zeta. split; [ reflexivity | ].
  split; [ constructor; constructor | ].
  split; [ reflexivity | discriminate ].
Qed.




(* ================================================================== *)
(** * Properties of App *)
(* ================================================================== *)

Import App.

Ltac open_app :=
  unfold exec, trace, App.step, handleVisibilityChange, handleLogout,
    onAuthStateChange, initializeAndListen, loadUserProfile,
    handleProfileUpdate, elapse, loadingTimeout, setCurrentUser, setAuthView,
    setLoading, registerAuthListener, setLoadingTimer, unload,
    console, alert, remote, bind, get, modify, emit, ret.

Lemma app_exec_run_cons ev evs st :
  exec (App.run (ev :: evs)) st = exec (App.run evs) (exec (App.step ev) st).
Proof. cbn [App.run]. apply exec_bind. Qed.

Lemma app_trace_run_cons ev evs st :
  trace (App.run (ev :: evs)) st
  = trace (App.step ev) st ++ trace (App.run evs) (exec (App.step ev) st).
Proof. cbn [App.run]. apply trace_bind. Qed.

Lemma app_reachable_run evs : forall st,
  App.reachable st -> App.reachable (exec (App.run evs) st).
Proof.
  induction evs as [ | ev evs IH]; intros st R.
  - exact R.
  - rewrite app_exec_run_cons. apply IH. now constructor.
Qed.

(** ** The auth listener is registered whenever an identity is held *)

Lemma listener_step st ev :
  (forall cu, currentUser st = Some cu ->
              authListener st = true /\ unloaded st = false) ->
  forall cu, currentUser (exec (App.step ev) st) = Some cu ->
             authListener (exec (App.step ev) st) = true /\
             unloaded (exec (App.step ev) st) = false.
Proof.
  intros H cu. open_app. cbn.
  destruct (unloaded st) eqn:U; cbn;
    [ intros X; destruct (H _ X); split; congruence | ].
  destruct ev; cbn; split_handler; cbn; intros X;
    try discriminate X;
    first [ split; congruence
          | destruct (H _ X); split; congruence
          | destruct (H _ eq_refl); split; congruence
          | match goal with
            | E : currentUser st = Some _ |- _ =>
                destruct (H _ E); split; congruence
            end ].
Qed.

Lemma listener_registered st :
  App.reachable st ->
  forall cu, currentUser st = Some cu ->
             authListener st = true /\ unloaded st = false.
Proof.
  induction 1 as [ | st ev R IH].
  - discriminate.
  - now apply listener_step.
Qed.

(** ** Revalidation on focus (C3) *)

Lemma invalidOnFocus_spec r cu :
  invalidOnFocus r cu = true <->
  gs_error r <> None \/ session r = None \/
  exists s, session r = Some s /\ au_id (user s) <> User.id cu.
Proof.
  unfold invalidOnFocus.
  destruct (gs_error r) as [e | ]; [ split; [ left; discriminate | reflexivity ] | ].
  destruct (session r) as [s | ]; [ | split; [ right; now left | reflexivity ] ].
  rewrite negb_true_iff, String.eqb_neq. split.
  - intros N. right. right. exists s. now split.
  - intros [X | [X | (s' & X & N)]]; [ now elim X | discriminate X | ].
    now injection X as <-.
Qed.

(** C3.  When the document becomes visible while an identity is held, the
    auth session is queried again.  If the query reports an error, no
    session, or a session of another user id, the forced logout runs once:
    one alert, one sign-out, each storage cleared once, and the identity
    is gone (through the auth listener, or with the document when the
    sign-out failed and the page navigates away).  If the ids match,
    nothing changes. *)
Theorem focus_revalidation
    (st : State) (cu : User.t) (r : SessionResult)
    (signOutError : option RemoteError) :
  App.reachable st ->
  currentUser st = Some cu ->
  let c := App.step (VisibilityChanged visible r signOutError) in
  (invalidOnFocus r cu = true <->
   gs_error r <> None \/ session r = None \/
   exists s, session r = Some s /\ au_id (user s) <> User.id cu) /\
  (invalidOnFocus r cu = true ->
   trace c st
   = [Console "Tab is visible, re-validating session...";
      Remote AuthGetSession;
      Console "Session invalid or mismatched on tab focus! Forcing hard logout.";
      Alert "Your session has expired or is invalid. The application will now refresh. Please log in again."]
     ++ logoutTrace true signOutError /\
   currentUser (exec c st) = None /\
   userRef (exec c st) = None) /\
  (invalidOnFocus r cu = false ->
   trace c st
   = [Console "Tab is visible, re-validating session...";
      Remote AuthGetSession;
      Console "Session OK on tab focus."] /\
   exec c st = st).
Proof.
  intros R C. destruct (listener_registered st R cu C) as [L U].
  split; [ apply invalidOnFocus_spec | ].
  open_app. cbn. rewrite U, C. cbn.
  split; intros I; rewrite I; cbn.
  - destruct signOutError as [e | ]; cbn; [ now repeat split | ].
    rewrite L. cbn. now repeat split.
  - now split.
Qed.

(** Alice is logged in; on focus the auth client answers with Bob's
    session, and the sign-out succeeds. *)
Lemma focus_revalidation_witness :
  App.reachable Sample.loggedIn /\
  currentUser Sample.loggedIn = Some Sample.alice /\
  alerts (trace (App.step (VisibilityChanged visible (Sample.signedIn Sample.bobAuth) None))
                Sample.loggedIn)
  = ["Your session has expired or is invalid. The application will now refresh. Please log in again."] /\
  currentUser (exec (App.step (VisibilityChanged visible (Sample.signedIn Sample.bobAuth) None))
                    Sample.loggedIn) = None.
Proof.
  assert (R : App.reachable Sample.loggedIn) by (constructor; constructor).
  split; [ exact R | ]. split; [ reflexivity | ].
  destruct (focus_revalidation Sample.loggedIn Sample.alice
              (Sample.signedIn Sample.bobAuth) None R eq_refl)
    as (_ & Bad & _).
  destruct (Bad eq_refl) as (T & Gone & _).
  split; [ | exact Gone ].
  rewrite T. reflexivity.
Defined.

(** ** The loading timeout (C9) *)

Lemma mounted_waiting : mounted = waiting 10000.
Proof. reflexivity. Qed.

Lemma result_of {S A} (c : M S A) (s s' : S) (a : A) (t : list Effect) :
  c s = (a, s', t) -> exec c s = s' /\ trace c s = t.
Proof. unfold exec, trace. intros ->. now split. Qed.

Lemma app_run_app pre tail : forall st,
  exec (App.run (pre ++ tail)) st = exec (App.run tail) (exec (App.run pre) st) /\
  trace (App.run (pre ++ tail)) st
  = trace (App.run pre) st ++ trace (App.run tail) (exec (App.run pre) st).
Proof.
  induction pre as [ | ev pre IH]; intros st.
  - now split.
  - rewrite <- app_comm_cons, !app_exec_run_cons, !app_trace_run_cons.
    destruct (IH (exec (App.step ev) st)) as [E T].
    rewrite E, T, app_assoc. now split.
Qed.

(** Once the document is left nothing runs any more. *)
Lemma run_unloaded evs : forall st,
  unloaded st = true ->
  exec (App.run evs) st = st /\ trace (App.run evs) st = [].
Proof.
  induction evs as [ | ev evs IH]; intros st U; [ now split | ].
  assert (E : App.step ev st = (tt, st, []))
    by (unfold App.step; rewrite run_get, U; reflexivity).
  apply result_of in E. destruct E as [E T].
  rewrite app_exec_run_cons, app_trace_run_cons, E, T.
  now apply IH.
Qed.

(** While start-up is pending, only the passing of time does anything:
    it brings the timeout closer, or fires it. *)
Lemma waiting_step ev remaining :
  isInitialized ev = false ->
  App.step ev (waiting remaining)
  = match ev with
    | Elapsed ms =>
        if (ms <? remaining)%N then (tt, waiting (remaining - ms), [])
        else (tt, unloadedPage, guardTrace)
    | _ => (tt, waiting remaining, [])
    end.
Proof.
  destruct ev; cbn; try discriminate; intros _; try reflexivity.
  - destruct visibilityState; reflexivity.
  - destruct (ms <? remaining)%N; reflexivity.
Qed.

Lemma guard_fires pre rest : forall remaining,
  forallb (fun ev => negb (isInitialized ev)) pre = true ->
  (0 < remaining)%N ->
  (remaining <= elapsedMs pre)%N ->
  trace (App.run (pre ++ rest)) (waiting remaining) = guardTrace /\
  exec (App.run (pre ++ rest)) (waiting remaining) = unloadedPage.
Proof.
  induction pre as [ | ev pre IH]; intros remaining NI Pos Late.
  - cbn in Late. lia.
  - cbn in NI. apply andb_prop in NI. destruct NI as [N1 NI].
    apply negb_true_iff in N1.
    pose proof (waiting_step ev remaining N1) as W.
    rewrite <- app_comm_cons, app_exec_run_cons, app_trace_run_cons.
    destruct ev; cbn in N1; try discriminate; cbn [elapsedMs] in Late;
      try (apply result_of in W; destruct W as [E T]; rewrite E, T;
           now apply IH).
    destruct (N.ltb_spec ms remaining) as [Lt | Ge];
      apply result_of in W; destruct W as [E T]; rewrite E, T.
    + apply IH; [ exact NI | lia | lia ].
    + destruct (run_unloaded (pre ++ rest) unloadedPage eq_refl) as [E' T'].
      rewrite E', T'. now split.
Qed.

Lemma guard_pending pre : forall remaining,
  forallb (fun ev => negb (isInitialized ev)) pre = true ->
  (elapsedMs pre < remaining)%N ->
  trace (App.run pre) (waiting remaining) = [] /\
  exec (App.run pre) (waiting remaining) = waiting (remaining - elapsedMs pre).
Proof.
  induction pre as [ | ev pre IH]; intros remaining NI Early.
  - cbn. now rewrite N.sub_0_r.
  - cbn in NI. apply andb_prop in NI. destruct NI as [N1 NI].
    apply negb_true_iff in N1.
    pose proof (waiting_step ev remaining N1) as W.
    rewrite app_exec_run_cons, app_trace_run_cons.
    destruct ev; cbn in N1; try discriminate; cbn [elapsedMs] in *;
      try (apply result_of in W; destruct W as [E T]; rewrite E, T;
           now apply IH).
    destruct (N.ltb_spec ms remaining) as [Lt | Ge]; [ | lia ].
    apply result_of in W. destruct W as [E T]. rewrite E, T.
    destruct (IH (remaining - ms)%N NI ltac:(lia)) as [T' E'].
    rewrite T', E'. split; [ reflexivity | f_equal; lia ].
Qed.

(** Start-up completing disarms the timeout. *)
Lemma initialized_disarms remaining r found created :
  loadingTimer (exec (App.step (Initialized r found created)) (waiting remaining)) = None /\
  ~ In LocationReload (trace (App.step (Initialized r found created)) (waiting remaining)).
Proof.
  open_app. cbn. split_handler; cbn; (split; [ reflexivity | ]);
    intros I; repeat (destruct I as [I | I]; [ discriminate I | ]); exact I.
Qed.

(** With no timeout pending, none is armed and the page is not reloaded. *)
Lemma disarmed_step ev st :
  loadingTimer st = None ->
  loadingTimer (exec (App.step ev) st) = None /\
  ~ In LocationReload (trace (App.step ev) st).
Proof.
  intros T. open_app. cbn.
  destruct (unloaded st) eqn:U; cbn; [ split; [ exact T | intros [] ] | ].
  destruct ev; cbn; rewrite ?T; cbn; split_handler; cbn;
    (split; [ first [ reflexivity | assumption ] | ]);
    intros I; repeat (destruct I as [I | I]; [ discriminate I | ]); exact I.
Qed.

Lemma disarmed_run evs : forall st,
  loadingTimer st = None ->
  loadingTimer (exec (App.run evs) st) = None /\
  ~ In LocationReload (trace (App.run evs) st).
Proof.
  induction evs as [ | ev evs IH]; intros st T; [ split; [ exact T | intros [] ] | ].
  rewrite app_exec_run_cons, app_trace_run_cons.
  destruct (disarmed_step ev st T) as [T' N].
  destruct (IH _ T') as [T'' N'].
  split; [ exact T'' | ].
  intros I. apply in_app_or in I. destruct I as [I | I]; auto.
Qed.

(** C9.  From the mounted component: if 10000 ms pass before start-up
    completes, the whole run consists of the timeout's callback, once
    (alert, both storages cleared, reload), whatever is attempted
    afterwards; if start-up completes while fewer than 10000 ms have
    passed, the timeout is cleared and the page is never reloaded. *)
Theorem loading_guard (pre rest : list Event)
    (r : SessionResult) (found created : Reply (option ProfileRow.t)) :
  forallb (fun ev => negb (isInitialized ev)) pre = true ->
  ((10000 <= elapsedMs pre)%N ->
   trace (App.run (pre ++ rest)) mounted = guardTrace) /\
  ((elapsedMs pre < 10000)%N ->
   loadingTimer (exec (App.run (pre ++ [Initialized r found created])) mounted) = None /\
   ~ In LocationReload
       (trace (App.run (pre ++ Initialized r found created :: rest)) mounted)).
Proof.
  intros NI. rewrite mounted_waiting. split.
  - intros Late. now apply guard_fires.
  - intros Early. destruct (guard_pending pre 10000 NI Early) as [T E].
    destruct (initialized_disarms (10000 - elapsedMs pre) r found created)
      as [D N].
    split.
    + destruct (app_run_app pre [Initialized r found created] (waiting 10000))
        as [E1 _].
      rewrite E1, E, app_exec_run_cons. exact D.
    + destruct (app_run_app pre (Initialized r found created :: rest)
                  (waiting 10000)) as [_ T1].
      rewrite T1, T, E, app_trace_run_cons. cbn [app].
      intros I. apply in_app_or in I. destruct I as [I | I]; [ now apply N | ].
      now apply (disarmed_run rest _ D).
Qed.

(** A start-up that is still pending after 4 s + 6 s is reloaded, once,
    and a late completion changes nothing; one that completes after 4 s
    is never reloaded, however long the page stays open. *)
Lemma loading_guard_witness :
  trace (App.run ([Elapsed 4000; VisibilityChanged visible Sample.noSession None;
                   Elapsed 6000]
                  ++ [Initialized (Sample.signedIn Sample.aliceAuth)
                        (Ok (Some Sample.aliceRow)) (Ok None);
                      Elapsed 60000]))
        mounted
  = guardTrace /\
  ~ In LocationReload
      (trace (App.run ([Elapsed 4000]
                       ++ Initialized (Sample.signedIn Sample.aliceAuth)
                            (Ok (Some Sample.aliceRow)) (Ok None)
                          :: [Elapsed 60000]))
             mounted).
Proof.
  split.
  - refine (proj1 (loading_guard
      [Elapsed 4000; VisibilityChanged visible Sample.noSession None; Elapsed 6000]
      [Initialized (Sample.signedIn Sample.aliceAuth)
         (Ok (Some Sample.aliceRow)) (Ok None); Elapsed 60000]
      Sample.noSession (Ok None) (Ok None) eq_refl) _).
    vm_compute. discriminate.
  - refine (proj2 (proj2 (loading_guard [Elapsed 4000] [Elapsed 60000]
      (Sample.signedIn Sample.aliceAuth) (Ok (Some Sample.aliceRow)) (Ok None)
      eq_refl) _)).
    reflexivity.
Defined.
(* ================================================================== *)
(** * Further properties of MainApp *)
(* ================================================================== *)

(** ** The text test behind the failure classification *)

Lemma prefix_split needle : forall haystack,
  String.prefix needle haystack = true <->
  exists rest, haystack = (needle ++ rest)%string.
Proof.
  induction needle as [ | c needle IH]; intros haystack.
  - split; [ intros _; now exists haystack | now destruct haystack ].
  - destruct haystack as [ | d haystack]; cbn [String.prefix String.append].
    + split; [ discriminate | intros [rest E]; discriminate E ].
    + destruct (Ascii.ascii_dec c d) as [ <- | N ].
      * rewrite IH. split; intros [rest E]; exists rest; congruence.
      * split; [ discriminate | intros [rest E]; congruence ].
Qed.

Lemma includes_split haystack needle :
  includes haystack needle = true <->
  exists before rest, haystack = (before ++ needle ++ rest)%string.
Proof.
  split.
  - induction haystack as [ | c haystack IH]; cbn [includes];
      destruct (String.prefix needle _) eqn:P.
    + intros _. apply prefix_split in P. destruct P as [rest E].
      now exists ""%string, rest.
    + discriminate.
    + intros _. apply prefix_split in P. destruct P as [rest E].
      now exists ""%string, rest.
    + intros I. destruct (IH I) as (before & rest & E).
      exists (String c before), rest. cbn. now rewrite E.
  - intros (before & rest & ->). apply includes_substring.
Qed.

(** X1.  A failure is taken for an expired session exactly when its text
    has "JWT" or "session" somewhere in it, in that spelling. *)
Theorem authExpired_iff_text_contains (e : RemoteError) :
  authExpired e = true <->
  (exists before rest, message e = (before ++ "JWT" ++ rest)%string) \/
  (exists before rest, message e = (before ++ "session" ++ rest)%string).
Proof.
  unfold authExpired. rewrite orb_true_iff, !includes_split. reflexivity.
Qed.

(** ** What the handlers leave alone *)

(** X2.  The cached session set is replaced by a successful reload and by
    nothing else: no lifecycle handler patches it, whatever its call
    returns. *)
Theorem sessions_replaced_only_by_reload
    (user : User.t) (ev : MainApp.Event) (st : MainApp.State) :
  (forall data, ev <> SessionsFetched (Success data)) ->
  sessions (exec (MainApp.step user ev) st) = sessions st.
Proof.
  intros N. open_handler. cbn.
  destruct (sessionValid st) eqn:V; cbn; [ | reflexivity ].
  destruct ev; cbn; split_handler; try reflexivity.
  now elim (N data).
Qed.

Lemma sessions_replaced_only_by_reload_witness :
  sessions (exec (MainApp.step Sample.alice
                    (JoinVibe 2 (Success (Sample.chess ["u2"; "u1"; "u1"]))))
                 Sample.returning)
  = [Sample.picnic ["u1"]].
Proof.
  refine (sessions_replaced_only_by_reload Sample.alice
            (JoinVibe 2 (Success (Sample.chess ["u2"; "u1"; "u1"])))
            Sample.returning _).
  intros data. discriminate.
Defined.

(** X3.  The active-session reference changes only when a create, join,
    close or leave call succeeds: it is set to the session returned by a
    create or a join, and cleared by a close or a leave. *)
Theorem reference_follows_successful_calls
    (user : User.t) (ev : MainApp.Event) (st : MainApp.State) :
  let after := activeSession (exec (MainApp.step user ev) st) in
  after = activeSession st \/
  (after = None /\
   ((exists sessionId, ev = CloseEvent sessionId (Success tt)) \/
    (exists sessionId, ev = LeaveVibe sessionId (Success tt)))) \/
  (exists s, after = Some s /\
   ((exists sessionId, ev = JoinVibe sessionId (Success s)) \/
    (exists sessionData, ev = SubmitCreate sessionData (Success (Some s))))).
Proof.
  open_handler. cbn.
  destruct (sessionValid st) eqn:V; cbn; [ | now left ].
  destruct ev; cbn; split_handler; try (now left).
  - right. right. eexists. split; [ reflexivity | right; eexists; reflexivity ].
  - right. left. split; [ reflexivity | left ].
    destruct data. eexists. reflexivity.
  - right. right. eexists. split; [ reflexivity | left; eexists; reflexivity ].
  - right. left. split; [ reflexivity | right ].
    destruct data. eexists. reflexivity.
Qed.

(** ** Creating a session *)

(** X4.  A map click made with no session active, then the form's
    submission: the row inserted is an active session at the clicked
    coordinates, created by the actor, with the actor as its only
    participant and the submitted duration; when the insert succeeds the
    returned session becomes the active one, the form is closed, the
    coordinates are dropped and the banner is cleared. *)
Theorem create_from_map_click
    (user : User.t) (st : MainApp.State) (coords : Coords)
    (sessionData : SessionData.t) (created : Session.t) :
  sessionValid st = true ->
  activeSession st = None ->
  let st1 := exec (handleMapClickInCreateMode coords) st in
  let submit := handleCreateSession user sessionData (Success (Some created)) in
  trace submit st1
  = [Remote (InsertSession
       {| ns_status := active;
          ns_lat := c_lat coords;
          ns_lng := c_lng coords;
          ns_creator_id := User.id user;
          ns_duration := SessionData.duration sessionData;
          ns_participants := [User.id user];
          ns_created_at := SessionData.created_at sessionData |})] /\
  activeSession (exec submit st1) = Some created /\
  createFormShown st1 = true /\
  createFormShown (exec submit st1) = false /\
  newEventCoords (exec submit st1) = None /\
  error (exec submit st1) = None /\
  sessions (exec submit st1) = sessions st.
Proof.
  intros V A. open_handler. unfold createFormShown. cbn. rewrite A. cbn.
  rewrite V. cbn. repeat split.
Qed.

Lemma create_from_map_click_witness :
  activeSession
    (exec (handleCreateSession Sample.alice Sample.halfHour
             (Success (Some (Sample.picnic ["u1"]))))
          (exec (handleMapClickInCreateMode Sample.here) MainApp.init))
  = Some (Sample.picnic ["u1"]).
Proof.
  exact (proj1 (proj2
    (create_from_map_click Sample.alice MainApp.init Sample.here
       Sample.halfHour (Sample.picnic ["u1"]) eq_refl eq_refl))).
Defined.

(** X5.  Without stored coordinates a submission does nothing at all,
    and however a submission with coordinates ends, its insert is the one
    remote call made: a failed create is not retried. *)
Theorem create_needs_coordinates
    (user : User.t) (st : MainApp.State) (sessionData : SessionData.t)
    (resp : Response (option Session.t)) :
  (newEventCoords st = None ->
   handleCreateSession user sessionData resp st = (tt, st, [])) /\
  (length (remoteCalls (trace (handleCreateSession user sessionData resp) st))
   <= 1)%nat.
Proof.
  open_handler. cbn. split.
  - intros ->. reflexivity.
  - split_handler; cbn; lia.
Qed.

(** X6.  Which session type was picked never shows in anything the
    component does: every event leaves the same trace, remote calls
    included, whatever the selected type is. *)
Theorem selected_type_is_never_used
    (user : User.t) (ev : MainApp.Event) (st : MainApp.State)
    (type : option SessionType) :
  trace (MainApp.step user ev) (withSelectedSessionType type st)
  = trace (MainApp.step user ev) st.
Proof.
  open_handler. unfold findSession. cbn.
  destruct (sessionValid st) eqn:V; cbn; [ | reflexivity ].
  destruct ev; cbn; split_handler; first [ reflexivity | congruence ].
Qed.

(** ** Invariants of the reachable states *)

Lemma ui_invariants_step user ev st :
  (isCreateMode st = false /\
   activeTab st <> ProfileTab /\
   (newEventCoords st <> None -> isCreateModalOpen st = true) /\
   (isProfileModalOpen st = true -> viewedUser st <> None)) ->
  let st' := exec (MainApp.step user ev) st in
  isCreateMode st' = false /\
  activeTab st' <> ProfileTab /\
  (newEventCoords st' <> None -> isCreateModalOpen st' = true) /\
  (isProfileModalOpen st' = true -> viewedUser st' <> None).
Proof.
  intros (I1 & I2 & I3 & I4). open_handler. cbn.
  destruct (sessionValid st) eqn:V; cbn; [ | now repeat split ].
  destruct ev; cbn; split_handler;
    (split; [ first [ assumption | reflexivity ] | ]);
    (split; [ first [ assumption | discriminate ] | ]);
    (split; [ intros X; first [ now apply I3 | reflexivity | now elim X
                              | apply I3; discriminate ]
            | intros X; first [ now apply I4 | discriminate ] ]).
Qed.

Lemma ui_invariants user st :
  MainApp.reachable user st ->
  isCreateMode st = false /\
  activeTab st <> ProfileTab /\
  (newEventCoords st <> None -> isCreateModalOpen st = true) /\
  (isProfileModalOpen st = true -> viewedUser st <> None).
Proof.
  induction 1 as [ | st ev R IH].
  - cbn. repeat split; try discriminate. intros X. now elim X.
  - now apply ui_invariants_step.
Qed.

(** X7.  Create mode is never entered: no handler sets it, so in every
    reachable state the map is outside create mode. *)
Theorem create_mode_never_entered (user : User.t) (st : MainApp.State) :
  MainApp.reachable user st -> isCreateMode st = false.
Proof. intros R. apply (ui_invariants user st R). Qed.

Lemma create_mode_never_entered_witness :
  isCreateMode Sample.joinedWhileCreating = false.
Proof.
  apply (create_mode_never_entered Sample.alice).
  apply reachable_run. constructor.
Defined.

(** X8.  Whenever coordinates for a new session are stored, the create
    form is open on the screen; and picking a session type with no
    coordinates stored does not bring the form up. *)
Theorem create_form_follows_coordinates
    (user : User.t) (st : MainApp.State) (type : SessionType) :
  MainApp.reachable user st ->
  createFormShown st = isSome (newEventCoords st) /\
  (newEventCoords st = None ->
   createFormShown (exec (MainApp.step user (SelectType type)) st) = false).
Proof.
  intros R. destruct (ui_invariants user st R) as (_ & _ & I3 & _).
  pose proof (sessionValid_reachable user st R) as V.
  unfold createFormShown. split.
  - destruct (newEventCoords st); [ | reflexivity ].
    cbn. apply I3. discriminate.
  - intros N. open_handler. cbn. rewrite V. cbn. now rewrite N.
Qed.

Lemma create_form_follows_coordinates_witness :
  createFormShown Sample.joinedWhileCreating = true.
Proof.
  refine (eq_trans (proj1 (create_form_follows_coordinates Sample.alice
                             Sample.joinedWhileCreating vibe _)) eq_refl).
  apply reachable_run. constructor.
Defined.

(** X9.  The Profile tab never becomes the active tab (clicking it opens
    the settings instead and leaves the tab where it was), so the page
    header is on every reachable screen. *)
Theorem profile_tab_opens_settings (user : User.t) (st : MainApp.State) :
  MainApp.reachable user st ->
  activeTab st <> ProfileTab /\
  headerShown st = true /\
  exec (MainApp.step user (TabClick ProfileTab)) st
  = withIsSettingsModalOpen true st.
Proof.
  intros R. destruct (ui_invariants user st R) as (_ & I2 & _).
  pose proof (sessionValid_reachable user st R) as V.
  split; [ exact I2 | split ].
  - unfold headerShown. destruct (activeTab st); try reflexivity. now elim I2.
  - open_handler. cbn. rewrite V. reflexivity.
Qed.

Lemma profile_tab_opens_settings_witness :
  headerShown Sample.chatting = true.
Proof.
  refine (proj1 (proj2 (profile_tab_opens_settings Sample.alice Sample.chatting _))).
  apply reachable_run. constructor.
Defined.

(** X10.  The profile view is on screen only with a user to show, and a
    profile lookup that fails or finds no row opens nothing. *)
Theorem profile_view_needs_a_row
    (user : User.t) (st : MainApp.State) (username : string)
    (resp : Response (option ProfileRow.t)) :
  MainApp.reachable user st ->
  profileShown st = isProfileModalOpen st /\
  ((forall row, resp <> Success (Some row)) ->
   viewedUser (exec (handleOpenProfile username resp) st) = viewedUser st /\
   isProfileModalOpen (exec (handleOpenProfile username resp) st)
   = isProfileModalOpen st).
Proof.
  intros R. destruct (ui_invariants user st R) as (_ & _ & _ & I4).
  pose proof (sessionValid_reachable user st R) as V.
  unfold profileShown. split.
  - destruct (isProfileModalOpen st); [ | apply andb_false_r ].
    destruct (viewedUser st); [ reflexivity | now elim I4 ].
  - intros N. open_handler. cbn. rewrite V. cbn.
    destruct resp as [ [row | ] | e | ]; cbn; split_handler; try now split.
    now elim (N row).
Qed.

Lemma profile_view_needs_a_row_witness :
  viewedUser (exec (handleOpenProfile "bob" (Failure Sample.timedOut)) Sample.chatting)
  = viewedUser Sample.chatting.
Proof.
  refine (proj1 (proj2 (profile_view_needs_a_row Sample.alice Sample.chatting
                          "bob" (Failure Sample.timedOut) _) _)).
  - apply reachable_run. constructor.
  - intros row. discriminate.
Defined.

(** X11.  The validity flag is never lowered, so the guards on it never
    stop a handler and the failure screen is never what is rendered. *)
Theorem validity_flag_never_lowered (user : User.t) (st : MainApp.State) :
  MainApp.reachable user st -> sessionValid st = true.
Proof. apply sessionValid_reachable. Qed.

Lemma validity_flag_never_lowered_witness :
  sessionValid Sample.chatting = true.
Proof.
  apply (validity_flag_never_lowered Sample.alice).
  apply reachable_run. constructor.
Defined.

(** ** The message list *)



Lemma remoteCalls_app (t1 t2 : list Effect) :
  remoteCalls (t1 ++ t2) = remoteCalls t1 ++ remoteCalls t2.
Proof.
  induction t1 as [ | [ | | r | | | | | ] t1 IH]; cbn; now rewrite ?IH.
Qed.

Lemma feed_step_result a st :
  chatMessages (exec (feedStep a) st)
  = chatMessages st ++ settledRows [a] /\
  remoteCalls (trace (feedStep a) st) = issuedLookups [a] /\
  activeSession (exec (feedStep a) st) = activeSession st /\
  isChatVisible (exec (feedStep a) st) = isChatVisible st /\
  sessions (exec (feedStep a) st) = sessions st /\
  error (exec (feedStep a) st) = error st.
Proof.
  destruct a as [payload_new | payload_new [profile | e | ]]; cbn;
    rewrite ?app_nil_r; repeat split; reflexivity.
Qed.

Lemma feed_run_result steps : forall st,
  chatMessages (exec (runFeed steps) st) = chatMessages st ++ settledRows steps /\
  remoteCalls (trace (runFeed steps) st) = issuedLookups steps /\
  activeSession (exec (runFeed steps) st) = activeSession st /\
  isChatVisible (exec (runFeed steps) st) = isChatVisible st /\
  sessions (exec (runFeed steps) st) = sessions st /\
  error (exec (runFeed steps) st) = error st.
Proof.
  induction steps as [ | a steps IH]; intros st.
  - cbn. rewrite app_nil_r. repeat split; reflexivity.
  - cbn [runFeed]. rewrite exec_bind, trace_bind, remoteCalls_app.
    destruct (feed_step_result a st) as (M & C & A & V & S & E).
    destruct (IH (exec (feedStep a) st)) as (M' & C' & A' & V' & S' & E').
    rewrite M', C', A', V', S', E', M, C, A, V, S, E.
    unfold settledRows, issuedLookups. cbn [flat_map].
    rewrite !app_nil_r, app_assoc. repeat split; reflexivity.
Qed.

(** X12.  The insert callback puts its row on the list when its own
    sender lookup settles, not when the feed delivers the row: however
    the deliveries and the settling lookups of several rows interleave,
    the lookups go out in delivery order and the message list grows by
    the rows whose lookups settled, in the order they settled (under the
    sender's name, under "Unknown" after an error, not at all after a
    raise), each at the end and none overwriting another.  Nothing else of
    the state changes.  Run to its end without anything in between, a
    callback is a delivery followed by its lookup settling. *)
Theorem live_rows_land_in_settle_order
    (steps : list FeedStep) (st : MainApp.State) :
  chatMessages (exec (runFeed steps) st) = chatMessages st ++ settledRows steps /\
  remoteCalls (trace (runFeed steps) st) = issuedLookups steps /\
  activeSession (exec (runFeed steps) st) = activeSession st /\
  isChatVisible (exec (runFeed steps) st) = isChatVisible st /\
  sessions (exec (runFeed steps) st) = sessions st /\
  error (exec (runFeed steps) st) = error st /\
  forall payload_new resp,
    onMessageInsert payload_new resp st
    = runFeed [Issued payload_new; Settled payload_new resp] st.
Proof.
  destruct (feed_run_result steps st) as (M & C & A & V & S & E).
  repeat (split; [ assumption | ]).
  intros payload_new resp. destruct resp; reflexivity.
Qed.

(** Two rows delivered in one order whose lookups settle in the other. *)
Example rows_overtake :
  let first := Sample.hello in
  let second := MessageRow.mk 8 2 "u2" "hi" "2024-05-01T11:05:30Z" in
  map (fun m => MessageRow.id (VibeMessage.row m))
      (chatMessages
         (exec (runFeed [Issued first; Issued second;
                         Settled second (Success {| ref_username := "bob" |});
                         Settled first (Failure Sample.timedOut)])
               Sample.chatting))
  = [8%Z; 7%Z] /\
  remoteCalls
    (trace (runFeed [Issued first; Issued second;
                     Settled second (Success {| ref_username := "bob" |});
                     Settled first (Failure Sample.timedOut)])
           Sample.chatting)
  = [SelectProfileName "u1"; SelectProfileName "u2"].
Proof. split; reflexivity. Qed.



(** ** Rosters and durations across a reload *)

Lemma filter_out_appended (l : list string) (x : string) :
  ~ In x l ->
  filter (fun p => negb (String.eqb p x)) (l ++ [x]) = l.
Proof.
  intros N. rewrite filter_app. cbn. rewrite String.eqb_refl. cbn.
  rewrite app_nil_r. induction l as [ | a l IH]; [ reflexivity | ].
  cbn. destruct (String.eqb_spec a x) as [ -> | D ].
  - elim N. now left.
  - cbn. f_equal. apply IH. intros I. apply N. now right.
Qed.

(** X14.  Joining and then leaving gives the roster back: when the actor
    was not on the cached roster, the join writes the roster with the
    actor's id at its end, and after a reload that shows this roster the
    leave writes the roster the join started from. *)
Theorem join_then_leave_restores_roster
    (user : User.t) (st : MainApp.State) (session joined : Session.t)
    (others : list Session.t) (gone : Response unit) :
  sessionValid st = true ->
  activeSession st = None ->
  findSession (Session.id session) (sessions st) = Some session ->
  ~ In (User.id user) (Session.participants session) ->
  let written := Session.participants session ++ [User.id user] in
  participantWrites
    (trace (MainApp.run user
              [JoinVibe (Session.id session) (Success joined);
               SessionsFetched (Success (withParticipants written session :: others));
               LeaveVibe (Session.id session) gone])
           st)
  = [(Session.id session, written);
     (Session.id session, Session.participants session)].
Proof.
  intros V A F N written.
  rewrite !trace_run_cons.
  set (st1 := exec (MainApp.step user (JoinVibe (Session.id session) (Success joined))) st).
  set (st2 := exec (MainApp.step user (SessionsFetched _)) st1).
  assert (T1 : trace (MainApp.step user (JoinVibe (Session.id session) (Success joined))) st
               = [Remote (UpdateParticipants (Session.id session) written)])
    by (open_handler; cbn; repeat (progress (rewrite ?V, ?A, ?F; cbn));
        reflexivity).
  assert (E1 : st1 = withActiveSession (Some joined) st)
    by (unfold st1; open_handler; cbn;
        repeat (progress (rewrite ?V, ?A, ?F; cbn)); reflexivity).
  assert (T2 : trace (MainApp.step user
                        (SessionsFetched (Success (withParticipants written session :: others)))) st1
               = [Remote SelectActiveSessions])
    by (rewrite E1; open_handler; cbn; now rewrite V).
  assert (E2 : st2 = withError None
                       (withSessions (withParticipants written session :: others) st1))
    by (unfold st2; rewrite E1; open_handler; cbn; now rewrite V).
  rewrite T1, T2, E2, E1.
  unfold written. open_handler. unfold findSession. cbn.
  repeat (progress (rewrite ?V, ?Z.eqb_refl; cbn)).
  destruct gone; cbn; split_handler;
    rewrite ?(filter_out_appended _ _ N); reflexivity.
Qed.

Lemma join_then_leave_restores_roster_witness :
  participantWrites
    (trace (MainApp.run Sample.alice
              [JoinVibe 2 (Success (Sample.chess ["u2"; "u1"]));
               SessionsFetched (Success [Sample.chess ["u2"; "u1"]]);
               LeaveVibe 2 (Success tt)])
           (exec (MainApp.step Sample.alice
                    (SessionsFetched (Success [Sample.chess ["u2"]])))
                 MainApp.init))
  = [(2%Z, ["u2"; "u1"]); (2%Z, ["u2"])].
Proof.
  refine (join_then_leave_restores_roster Sample.alice
            (exec (MainApp.step Sample.alice
                     (SessionsFetched (Success [Sample.chess ["u2"]])))
                  MainApp.init)
            (Sample.chess ["u2"]) (Sample.chess ["u2"; "u1"]) [] (Success tt)
            eq_refl eq_refl eq_refl _).
  cbn. intros [X | []]. discriminate X.
Defined.



(* ================================================================== *)
(** * Further properties of App *)
(* ================================================================== *)

(** ** Invariants of the reachable states *)

Lemma app_invariants_step ev st :
  (userRef st = currentUser st /\
   (unloaded st = false -> loading st = false -> authListener st = true)) ->
  let st' := exec (App.step ev) st in
  userRef st' = currentUser st' /\
  (unloaded st' = false -> loading st' = false -> authListener st' = true).
Proof.
  intros (I1 & I2). open_app. cbn.
  destruct (unloaded st) eqn:U; cbn; [ split; [ exact I1 | congruence ] | ].
  destruct ev; cbn; split_handler; cbn;
    (split; [ first [ reflexivity | assumption | congruence ]
            | first [ reflexivity | discriminate | congruence
                    | intros X L;
                      first [ congruence
                            | apply I2; congruence
                            | specialize (I2 eq_refl L); congruence ] ] ]).
Qed.

Lemma app_invariants st :
  App.reachable st ->
  userRef st = currentUser st /\
  (unloaded st = false -> loading st = false -> authListener st = true).
Proof.
  induction 1 as [ | st ev R IH].
  - split; [ reflexivity | discriminate ].
  - now apply app_invariants_step.
Qed.

(** X16.  The user ref and the user state cell always hold the same
    value. *)
Theorem user_ref_in_sync (st : App.State) :
  App.reachable st -> userRef st = currentUser st.
Proof. intros R. apply (app_invariants st R). Qed.

Lemma user_ref_in_sync_witness :
  userRef Sample.loggedIn = currentUser Sample.loggedIn.
Proof.
  apply user_ref_in_sync. constructor. constructor.
Defined.

(** ** Loading a profile *)

(** X17.  Loading the profile of an auth user ends in one of three ways:
    no identity is held; or the identity held has the auth user's id and
    email and its profile fields come from the row that was found or
    created, and the auth user is a confirmed one; or, only when the row
    was neither found nor returned by the insert, the identity is left as
    it was.  An unconfirmed auth user is dropped without any remote
    call. *)
Theorem profile_load_outcomes
    (authUser : AuthUser) (found created : Reply (option ProfileRow.t))
    (st : App.State) :
  let st' := exec (loadUserProfile authUser found created) st in
  (aud authUser <> "authenticated" ->
   currentUser st' = None /\
   remoteCalls (trace (loadUserProfile authUser found created) st) = []) /\
  (currentUser st' = None \/
   (exists row,
      currentUser st' = Some (userOf authUser row) /\
      aud authUser = "authenticated" /\
      (found = Ok (Some row) \/ (found = Ok None /\ created = Ok (Some row)))) \/
   (currentUser st' = currentUser st /\ found = Ok None /\ created = Ok None)).
Proof.
  open_app. cbn.
  destruct (String.eqb_spec (aud authUser) "authenticated") as [E | N]; cbn.
  - split; [ intros X; now elim X | ].
    destruct found as [ [row | ] | e ]; cbn.
    + right. left. exists row. repeat split; auto.
    + destruct (truthy (meta_username authUser)) as [newUsername | ]; cbn;
        [ | now left ].
      destruct created as [ [row | ] | e ]; cbn.
      * right. left. exists row. repeat split; auto.
      * right. right. repeat split.
      * now left.
    + now left.
  - split; [ intros _; now split | now left ].
Qed.

(** X18.  When no profile row exists, one is created only if the sign-up
    metadata carries a non-empty username; the row written has the auth
    user's id, that username, the metadata's bio or the empty text, and
    the metadata's privacy or "public" when it is absent or empty.  With
    no usable username nothing is written and no identity is held. *)
Theorem missing_profile_fallback
    (authUser : AuthUser) (created : Reply (option ProfileRow.t))
    (st : App.State) :
  aud authUser = "authenticated" ->
  let c := loadUserProfile authUser (Ok None) created in
  match meta_username authUser with
  | Some name =>
      if String.eqb name "" then
        remoteCalls (trace c st) = [SelectProfileById (au_id authUser)] /\
        currentUser (exec c st) = None
      else
        remoteCalls (trace c st)
        = [SelectProfileById (au_id authUser);
           InsertProfile
             (ProfileRow.mk (au_id authUser) name
                match meta_bio authUser with
                | Some bio => bio
                | None => ""
                end
                match meta_privacy authUser with
                | Some "" | None => "public"
                | Some privacy => privacy
                end)]
  | None =>
      remoteCalls (trace c st) = [SelectProfileById (au_id authUser)] /\
      currentUser (exec c st) = None
  end.
Proof.
  intros E. open_app. unfold truthy, orElse. cbn. rewrite E. cbn.
  destruct (meta_username authUser) as [name | ]; cbn; [ | now split ].
  destruct (String.eqb name "") eqn:Empty; cbn; [ now split | ].
  destruct (meta_bio authUser) as [bio | ], (meta_privacy authUser) as [privacy | ];
    cbn;
    try (destruct (String.eqb_spec bio "") as [ -> | ]);
    try (destruct (String.eqb_spec privacy "") as [ -> | ]);
    destruct created as [ [row | ] | e ]; cbn;
    try reflexivity;
    destruct privacy; try reflexivity; congruence.
Qed.

Lemma missing_profile_fallback_witness :
  remoteCalls
    (trace (loadUserProfile Sample.aliceAuth (Ok None) (Ok (Some Sample.aliceRow)))
           mounted)
  = [SelectProfileById "u1";
     InsertProfile (ProfileRow.mk "u1" "alice" "" "public")].
Proof.
  exact (missing_profile_fallback Sample.aliceAuth (Ok (Some Sample.aliceRow))
           mounted eq_refl).
Defined.

(** ** Start-up *)

(** X19.  Start-up always comes to an end: however the session query and
    the profile load turn out, loading is over, the spinner is gone, the
    loading timeout is cleared and the auth listener is registered.  An
    identity is held afterwards only if the query reported no error and a
    session of a confirmed user, and it carries that user's id. *)
Theorem start_up_always_completes
    (remaining : N) (r : SessionResult)
    (found created : Reply (option ProfileRow.t)) :
  let st' := exec (App.step (Initialized r found created)) (waiting remaining) in
  loading st' = false /\
  screen st' <> Initializing /\
  loadingTimer st' = None /\
  authListener st' = true /\
  unloaded st' = false /\
  (forall u, currentUser st' = Some u ->
     gs_error r = None /\
     exists s, session r = Some s /\
               User.id u = au_id (user s) /\
               aud (user s) = "authenticated").
Proof.
  open_app. unfold screen. cbn.
  destruct (gs_error r) as [e | ]; cbn;
    [ repeat split; try discriminate | ].
  destruct (session r) as [s | ]; cbn;
    [ | repeat split; try discriminate ].
  destruct (String.eqb_spec (aud (user s)) "authenticated") as [E | N]; cbn;
    [ | repeat split; try discriminate ].
  destruct found as [ [row | ] | e ]; cbn.
  - repeat split; try discriminate.
    exists s. injection H as <-. now repeat split.
  - destruct (truthy (meta_username (user s))); cbn;
      [ | repeat split; try discriminate ].
    destruct created as [ [row | ] | e ]; cbn; repeat split; try discriminate.
    exists s. injection H as <-. now repeat split.
  - repeat split; try discriminate.
Qed.

(** ** Auth events *)

(** X20.  A [SIGNED_IN] event for the user already held is ignored: no
    profile is loaded again and nothing changes. *)
Theorem redundant_sign_in_ignored
    (st : App.State) (u : User.t) (s : AuthSession)
    (found created : Reply (option ProfileRow.t)) :
  App.reachable st ->
  currentUser st = Some u ->
  au_id (user s) = User.id u ->
  exec (App.step (AuthStateChanged SIGNED_IN (Some s) found created)) st = st /\
  remoteCalls (trace (App.step (AuthStateChanged SIGNED_IN (Some s) found created)) st)
  = [].
Proof.
  intros R C E.
  destruct (listener_registered st R u C) as [L U].
  destruct (app_invariants st R) as [Ref _]. rewrite C in Ref.
  open_app. cbn. rewrite U, L. cbn. rewrite Ref, E, String.eqb_refl. cbn.
  now split.
Qed.

Lemma redundant_sign_in_ignored_witness :
  exec (App.step (AuthStateChanged SIGNED_IN (Some {| user := Sample.aliceAuth |})
                    (Err Sample.timedOut) (Ok None)))
       Sample.loggedIn
  = Sample.loggedIn.
Proof.
  refine (proj1 (redundant_sign_in_ignored Sample.loggedIn Sample.alice
                   {| user := Sample.aliceAuth |} (Err Sample.timedOut) (Ok None)
                   _ eq_refl eq_refl)).
  constructor. constructor.
Defined.

(** ** Logging out *)

(** X21.  A logout asked for once start-up is over signs out once and
    clears each storage once, whether or not the sign-out reports an
    error, and no identity is left: after a clean sign-out the login or
    the sign-up form is shown, and after a failed one the document has
    been left for "/". *)
Theorem logout_leaves_no_identity
    (st : App.State) (signOutError : option RemoteError) :
  App.reachable st ->
  loading st = false ->
  unloaded st = false ->
  let c := App.step (LogoutRequested signOutError) in
  trace c st = logoutTrace true signOutError /\
  currentUser (exec c st) = None /\
  match signOutError with
  | None =>
      unloaded (exec c st) = false /\
      (screen (exec c st) = LoginScreen \/ screen (exec c st) = SignUpScreen)
  | Some _ => exec c st = unloadedPage
  end.
Proof.
  intros R L U.
  destruct (app_invariants st R) as [_ Reg]. specialize (Reg U L).
  open_app. unfold screen. cbn. rewrite U, L. cbn.
  destruct signOutError as [e | ]; cbn; [ now repeat split | ].
  rewrite Reg. cbn. rewrite L. repeat split; try assumption.
  destruct (authView st); [ now left | now right ].
Qed.

Lemma logout_leaves_no_identity_witness :
  currentUser (exec (App.step (LogoutRequested None)) Sample.loggedIn) = None /\
  exec (App.step (LogoutRequested (Some Sample.timedOut))) Sample.loggedIn
  = unloadedPage.
Proof.
  assert (R : App.reachable Sample.loggedIn) by (constructor; constructor).
  split.
  - exact (proj1 (proj2 (logout_leaves_no_identity Sample.loggedIn None
                           R eq_refl eq_refl))).
  - exact (proj2 (proj2 (logout_leaves_no_identity Sample.loggedIn
                           (Some Sample.timedOut) R eq_refl eq_refl))).
Defined.

(** ** Updating the profile *)

(** X22.  A profile update writes the submitted bio and privacy for the
    held user's id.  When a row comes back, the held user keeps its id,
    email and username and takes the bio and privacy of that row (not the
    submitted ones), in the state cell and in the ref alike; when the
    update fails or returns no row nothing changes. *)
Theorem profile_update_keeps_identity
    (st : App.State) (cu : User.t) (updatedProfile : Profile.t)
    (resp : Reply (option ProfileRow.t)) :
  currentUser st = Some cu ->
  let c := handleProfileUpdate updatedProfile resp in
  remoteCalls (trace c st)
  = [UpdateProfile (User.id cu) (Profile.bio updatedProfile)
                   (Profile.privacy updatedProfile)] /\
  match resp with
  | Ok (Some data) =>
      let cu' := User.mk (User.id cu) (User.email cu)
                   (Profile.mk (Profile.username (User.profile cu))
                               (ProfileRow.bio data) (ProfileRow.privacy data)) in
      currentUser (exec c st) = Some cu' /\ userRef (exec c st) = Some cu'
  | _ => exec c st = st
  end.
Proof.
  intros C. open_app. cbn. rewrite C. cbn.
  destruct resp as [ [data | ] | e ]; cbn; rewrite ?C; now repeat split.
Qed.

Lemma profile_update_keeps_identity_witness :
  currentUser
    (exec (handleProfileUpdate (Profile.mk "mallory" "submitted" "private")
             (Ok (Some (ProfileRow.mk "u9" "eve" "stored" "friends"))))
          Sample.loggedIn)
  = Some (User.mk "u1" (Some "alice@example.org")
            (Profile.mk "alice" "stored" "friends")).
Proof.
  exact (proj1 (proj2
    (profile_update_keeps_identity Sample.loggedIn Sample.alice
       (Profile.mk "mallory" "submitted" "private")
       (Ok (Some (ProfileRow.mk "u9" "eve" "stored" "friends"))) eq_refl))).
Defined.

(* ================================================================== *)
(** * The session type dialog *)
(* ================================================================== *)

(** X23.  The dialog offers nothing while closed and each of the four
    session types exactly once while open; picking an offered type stores
    it, closes the dialog, and changes nothing that is sent anywhere. *)
Theorem type_dialog_offers_each_type_once
    (user : User.t) (st : MainApp.State) (type : SessionType) :
  MainApp.reachable user st ->
  SessionTypeModal.buttons false = [] /\
  count_occ SessionTypeModal.sessionTypeEqDec
            (SessionTypeModal.buttons true) type = 1%nat /\
  let st' := exec (MainApp.step user (SelectType type)) st in
  selectedSessionType st' = Some type /\
  SessionTypeModal.buttons (isSessionTypeModalOpen st') = [] /\
  trace (MainApp.step user (SelectType type)) st = [].
Proof.
  intros R. pose proof (sessionValid_reachable user st R) as V.
  split; [ reflexivity | split ].
  - destruct type; reflexivity.
  - open_handler. cbn. rewrite V. cbn. now repeat split.
Qed.

Lemma type_dialog_offers_each_type_once_witness :
  selectedSessionType (exec (MainApp.step Sample.alice (SelectType seek)) Sample.chatting)
  = Some seek.
Proof.
  refine (proj1 (proj2 (proj2
    (type_dialog_offers_each_type_once Sample.alice Sample.chatting seek _)))).
  apply reachable_run. constructor.
Defined.

(* ================================================================== *)
(** * Lookups in the cached session set *)
(* ================================================================== *)

Lemma findSession_first_match_aux (sessionId : Z) (cached : list Session.t) :
  match findSession sessionId cached with
  | Some s =>
      Session.id s = sessionId /\
      exists before rest,
        cached = before ++ s :: rest /\
        forall x, In x before -> Session.id x <> sessionId
  | None => forall x, In x cached -> Session.id x <> sessionId
  end.
Proof.
  unfold findSession. induction cached as [ | a cached IH]; cbn.
  - intros x [].
  - destruct (Z.eqb_spec (Session.id a) sessionId) as [E | D].
    + split; [ exact E | ]. exists [], cached. split; [ reflexivity | intros x [] ].
    + destruct (find _ cached) as [s | ].
      * destruct IH as (E & before & rest & C & F). split; [ exact E | ].
        exists (a :: before), rest. split; [ now rewrite C | ].
        intros x [ <- | I ]; [ exact D | now apply F ].
      * intros x [ <- | I ]; [ exact D | now apply IH ].
Qed.

(** X24.  The lookup by id returns the first cached session with that
    id, and nothing exactly when no cached session has it. *)
Theorem findSession_first_match (sessionId : Z) (cached : list Session.t) :
  match findSession sessionId cached with
  | Some s =>
      Session.id s = sessionId /\
      exists before rest,
        cached = before ++ s :: rest /\
        forall x, In x before -> Session.id x <> sessionId
  | None => forall x, In x cached -> Session.id x <> sessionId
  end.
Proof. apply findSession_first_match_aux. Qed.

(** X25.  A leave or an extend of a session that is not in the local
    cache is dropped without a word, whatever session is active: no
    remote call, no alert, no banner, no change of state.  So is a join
    while no session is active; with one active a join only alerts. *)
Theorem uncached_session_is_left_alone
    (user : User.t) (st : MainApp.State) (sessionId : Z)
    (joined : Response Session.t) (resp : Response unit) :
  (forall s, In s (sessions st) -> Session.id s <> sessionId) ->
  handleLeaveSession user sessionId resp st = (tt, st, []) /\
  handleExtendSession sessionId resp st = (tt, st, []) /\
  (activeSession st = None ->
   handleJoinSession user sessionId joined st = (tt, st, [])) /\
  exec (handleJoinSession user sessionId joined) st = st /\
  remoteCalls (trace (handleJoinSession user sessionId joined) st) = [].
Proof.
  intros N.
  assert (F : findSession sessionId (sessions st) = None).
  { pose proof (findSession_first_match_aux sessionId (sessions st)) as X.
    destruct (findSession sessionId (sessions st)) as [s | ]; [ | reflexivity ].
    destruct X as (E & before & rest & C & _).
    elim (N s); [ rewrite C; apply in_elt | exact E ]. }
  open_handler. cbn. rewrite F.
  destruct (sessionValid st), (activeSession st); cbn;
    repeat split; try reflexivity; discriminate.
Qed.

(** Alice, active in session 2 with its chat open, leaves and extends a
    session 9 that her cache does not hold. *)
Lemma uncached_session_is_left_alone_witness :
  activeSession Sample.chatting = Some (Sample.chess ["u2"; "u1"]) /\
  handleLeaveSession Sample.alice 9 (Success tt) Sample.chatting
  = (tt, Sample.chatting, []) /\
  handleExtendSession 9 (Success tt) Sample.chatting = (tt, Sample.chatting, []).
Proof.
  split; [ reflexivity | ].
  destruct (uncached_session_is_left_alone Sample.alice Sample.chatting 9
              (Success (Sample.chess [])) (Success tt)) as (L & X & _).
  - intros s [ <- | [ <- | [] ] ]; discriminate.
  - now split.
Defined.

(** X26.  Scheduled logouts are neither merged nor cancelled: when the
    reload of the session set fails [n] times with an expired-session
    text, [n] logouts are scheduled, each 2000 ms after its failure. *)
Theorem every_expired_reload_schedules_a_logout
    (user : User.t) (st : MainApp.State) (e : RemoteError) (n : nat) :
  sessionValid st = true ->
  authExpired e = true ->
  timeouts (trace (MainApp.run user (repeat (SessionsFetched (Failure e)) n)) st)
  = repeat (OnLogout, 2000%N) n.
Proof.
  intros V X. revert st V.
  induction n as [ | n IH]; intros st V; [ reflexivity | ].
  cbn [repeat]. rewrite trace_run_cons.
  assert (T : trace (MainApp.step user (SessionsFetched (Failure e))) st
              = [Remote SelectActiveSessions; Console "Error fetching sessions";
                 SetTimeout OnLogout 2000])
    by (open_handler; cbn; rewrite V; cbn; now rewrite X).
  rewrite T. cbn [timeouts app]. f_equal.
  apply IH. now rewrite sessionValid_step.
Qed.

Lemma every_expired_reload_schedules_a_logout_witness :
  timeouts (trace (MainApp.run Sample.alice
                     (repeat (SessionsFetched (Failure Sample.jwtExpired)) 3))
                  Sample.chatting)
  = [(OnLogout, 2000%N); (OnLogout, 2000%N); (OnLogout, 2000%N)].
Proof.
  exact (every_expired_reload_schedules_a_logout Sample.alice Sample.chatting
           Sample.jwtExpired 3 eq_refl eq_refl).
Defined.
